(** * Sensorhub: sensor sampling and telemetry upload

    A shallow embedding of [src/code/main.py]: the shared [DataSet], the
    sampling task [SensorDataCollector] with its change filter, and the upload
    task [SensorDataUploader] with its handshake, bounded retries and
    cadence-driven payload assembly.

    The sensor drivers, the cloud client, the clock, the logger and the lock
    are collaborators outside the file.  They are modelled by what the
    program can observe of them: the answer each call returns or the
    exception it raises, and the calls the program makes, recorded as events
    in the order they happen.  The logger, [print], [utime.sleep] and the
    lock are taken not to raise.  Both tasks hold the lock of the shared set
    for a whole round, so a run of the two threads is an interleaving of
    whole rounds; the properties below are about single rounds and about
    each task's own sequence of rounds. *)

From stdpp Require Import gmap strings list.
From Stdlib Require Import ZArith Lia Floats.
From Stdlib Require QArith Qabs.

Local Open Scope Z_scope.

(** ** Numbers

    The samples are Python numbers: floats from the drivers, next to the int
    literals [0] and [1] of the program.  The program subtracts them, takes
    [abs] and compares with [>], and nothing else, so the model is generic in
    a numeric type with these operations; [num_eq] is Python's [==], used to
    state the boundary case.  The one law asked of an instance is that
    numbers that are [==] are not ordered by [>]; integers, rationals and
    IEEE floats satisfy it.  Subtraction is the instance's own: on floats it
    rounds. *)

Class Number (num : Type) := {
  num_zero : num;
  num_one : num;
  num_sub : num -> num -> num;
  num_abs : num -> num;
  num_gt : num -> num -> bool;
  num_eq : num -> num -> bool;
  num_eq_not_gt : forall x y, num_eq x y = true -> num_gt x y = false
}.

Lemma Z_eq_not_gt (x y : Z) : (x =? y) = true -> (x >? y) = false.
Proof. rewrite Z.eqb_eq, Z.gtb_ltb, Z.ltb_ge. lia. Qed.

#[export] Instance Number_Z : Number Z := {|
  num_zero := 0;
  num_one := 1;
  num_sub := Z.sub;
  num_abs := Z.abs;
  num_gt := Z.gtb;
  num_eq := Z.eqb;
  num_eq_not_gt := Z_eq_not_gt
|}.

Definition Q_gt (x y : QArith_base.Q) : bool := negb (QArith_base.Qle_bool x y).

Lemma Q_eq_not_gt (x y : QArith_base.Q) :
  QArith_base.Qeq_bool x y = true -> Q_gt x y = false.
Proof.
  intros E. apply QArith_base.Qeq_bool_iff in E.
  unfold Q_gt. apply negb_false_iff, QArith_base.Qle_bool_iff.
  rewrite E. apply QArith_base.Qle_refl.
Qed.

#[export] Instance Number_Q : Number QArith_base.Q := {|
  num_zero := QArith_base.Qmake 0 1;
  num_one := QArith_base.Qmake 1 1;
  num_sub := QArith_base.Qminus;
  num_abs := Qabs.Qabs;
  num_gt := Q_gt;
  num_eq := QArith_base.Qeq_bool;
  num_eq_not_gt := Q_eq_not_gt
|}.

(** IEEE binary64, with the comparisons of the hardware: [x > y] is
    [y < x], and a NaN compares false with everything. *)
Definition float_gt (x y : float) : bool := PrimFloat.ltb y x.

Lemma SFcompare_Eq_sym (a b : spec_float) :
  SFcompare a b = Some Eq -> SFcompare b a = Some Eq.
Proof.
  destruct a as [sa|sa| |sa ma ea], b as [sb|sb| |sb mb eb]; cbn; try done;
    try (destruct sa; done); try (destruct sb; done); try (destruct sa, sb; done).
  destruct sa, sb; try done;
    (destruct (Z.compare_spec ea eb) as [->| |]; try done);
    rewrite Z.compare_refl;
    change (Pos.compare_cont Eq mb ma) with (Pos.compare_cont (CompOpp Eq) mb ma);
    rewrite <- (Pos.compare_cont_antisym ma mb Eq);
    by destruct (Pos.compare_cont Eq ma mb).
Qed.

Lemma float_eq_not_gt (x y : float) : PrimFloat.eqb x y = true -> float_gt x y = false.
Proof.
  unfold float_gt. rewrite eqb_spec, ltb_spec. unfold SFeqb, SFltb.
  destruct (SFcompare (Prim2SF x) (Prim2SF y)) as [[| |]|] eqn:E; try done.
  by rewrite (SFcompare_Eq_sym _ _ E).
Qed.

#[export] Instance Number_float : Number float := {|
  num_zero := 0%float;
  num_one := 1%float;
  num_sub := PrimFloat.sub;
  num_abs := PrimFloat.abs;
  num_gt := float_gt;
  num_eq := PrimFloat.eqb;
  num_eq_not_gt := float_eq_not_gt
|}.

(** ** Python values, exceptions, results *)

(** What [sendLbs], [sendGnss] and the client's [sendTsl] hand back to the
    upload loop, which only formats it into a log line. *)
Inductive pyval :=
  | PyNone
  | PyBool (b : bool).

Definition str (v : pyval) : string :=
  match v with
  | PyNone => "None"
  | PyBool true => "True"
  | PyBool false => "False"
  end.

(** The exceptions of the model, all of them caught by [except Exception]:
    the read of a local name that nothing was assigned to yet, and what a
    driver or the client raises. *)
Inductive exn :=
  | NameError (var : string)
  | ExternalError (msg : string).

Definition exn_str (e : exn) : string :=
  match e with
  | NameError _ => "local variable referenced before assignment"
  | ExternalError msg => msg
  end.

Inductive result (A : Type) :=
  | Ok (a : A)
  | Raise (e : exn).
Arguments Ok {A} a.
Arguments Raise {A} e.

Inductive level := INFO | ERROR.

(** [break] out of a [for] loop, or fall through to its next iteration. *)
Inductive control := Break | Continue.

Section Sensorhub.

Context {num : Type} `{Number num}.

(** ** Data model *)

(** [class DataSet]: the four filtered fields are [None] (the no-change
    marker) or a number; [rgb888] is an int.  The lock is represented by the
    [EAcquire] and [ERelease] events of the critical sections. *)
Record DataSet := mkDataSet {
  temp1 : option num;
  humi : option num;
  press : option num;
  temp2 : option num;
  rgb888 : Z
}.

(** [DataSet.__init__] *)
Definition DataSet_init : DataSet :=
  {| temp1 := Some num_zero; humi := Some num_zero; press := Some num_zero;
     temp2 := Some num_zero; rgb888 := 0 |}.

(** The previous-value memos of [class SensorDataCollector]; [None] is
    Python's [None]. *)
Record SensorDataCollector := mkCollector {
  prev_temp1 : option num;
  prev_humi : option num;
  prev_temp2 : option num;
  prev_press : option num
}.

(** [SensorDataCollector.__init__] *)
Definition SensorDataCollector_init : SensorDataCollector :=
  {| prev_temp1 := None; prev_humi := None; prev_temp2 := None; prev_press := None |}.

(** A value of the telemetry dict: a sample, or the nested dict of the color
    channels. *)
Inductive pval :=
  | Scalar (v : num)
  | Channels (d : gmap Z Z).

(** The collaborators, each as the answers its future calls give, the next
    call first.  A call consumes answer [0]. *)
Record externals := mkExternals {
  shtc3 : nat -> result (num * num);      (* Shtc3.getTempAndHumi: (temp, humi) *)
  lps22hb : nat -> result (num * num);    (* Lps22hb.getTempAndPressure: (press, temp) *)
  tcs34725 : nat -> result Z;             (* Tcs34725.getRGBValue *)
  isStatusOk : nat -> result bool;        (* QthClient.isStatusOk *)
  lbs : nat -> result bool;               (* QthClient.sendLbs *)
  gnss : nat -> result bool;              (* QthClient.sendGnss *)
  tsl : nat -> result bool;               (* QthClient.sendTsl *)
  ticks : nat -> Z                        (* utime.ticks_ms *)
}.

(** The state both tasks run on.  [data] is the local variable of
    [SensorDataUploader.__call__]: [None] while it is unbound, and otherwise
    the dict it refers to, which [update] changes in place. *)
Record world := mkWorld {
  collector : SensorDataCollector;
  data_set : DataSet;
  data : option (gmap Z pval);
  ext : externals
}.

Inductive event :=
  | EAcquire                                  (* data_set.lock.acquire() *)
  | ERelease                                  (* data_set.lock.release() *)
  | ESleep (seconds : Z)                      (* utime.sleep *)
  | ETicksMs                                  (* utime.ticks_ms() *)
  | ELog (lv : level) (msg : string)          (* logger.info, logger.error *)
  | EDataShow (d : DataSet)                   (* DataSet.dataShow *)
  | EPrint (e : exn)                          (* print(e) *)
  | EGetTempAndHumi
  | EGetTempAndPressure
  | EGetRGBValue
  | EStart
  | EIsStatusOk
  | ESendLbs
  | ESendGnss
  | ESendTsl (profile : Z) (payload : gmap Z pval).

(** ** The monad of the embedding: state, exceptions and emitted events *)

Record outcome (A : Type) := Out {
  res : result A;
  after : world;
  events : list event
}.
Arguments Out {A} res after events.
Arguments res {A} o.
Arguments after {A} o.
Arguments events {A} o.

Definition M (A : Type) : Type := world -> outcome A.

#[global] Instance M_ret : MRet M := fun A a w => Out (Ok a) w [].

#[global] Instance M_bind : MBind M := fun A B f m w =>
  match m w with
  | Out (Ok a) w1 t1 =>
      match f a w1 with
      | Out r w2 t2 => Out r w2 (t1 ++ t2)
      end
  | Out (Raise e) w1 t1 => Out (Raise e) w1 t1
  end.

(** [try: m except Exception as e: handler e] *)
Definition try_except {A} (m : M A) (handler : exn -> M A) : M A := fun w =>
  match m w with
  | Out (Ok a) w1 t1 => Out (Ok a) w1 t1
  | Out (Raise e) w1 t1 =>
      match handler e w1 with
      | Out r w2 t2 => Out r w2 (t1 ++ t2)
      end
  end.

Definition emit (e : event) : M unit := fun w => Out (Ok tt) w [e].
Definition gets {A} (f : world -> A) : M A := fun w => Out (Ok (f w)) w [].
Definition modify (f : world -> world) : M unit := fun w => Out (Ok tt) (f w) [].
Definition raise {A} (e : exn) : M A := fun w => Out (Raise e) w [].

(** [with self.data_set: m]: [__enter__] takes the lock, [__exit__] releases
    it on every way out and does not swallow the exception. *)
Definition with_data_set {A} (m : M A) : M A := fun w =>
  match m w with
  | Out r w1 t1 => Out r w1 (EAcquire :: t1 ++ [ERelease])
  end.

(** [for _ in range(n): body], where [body] says whether it ended in [break].
    The answer is [true] when the loop ran out of iterations, that is when
    the [else] clause of the loop is to run. *)
Fixpoint for_range (n : nat) (body : M control) : M bool :=
  match n with
  | O => mret true
  | S n' =>
      c ← body;
      match c with
      | Break => mret false
      | Continue => for_range n' body
      end
  end.

(** The first [n] iterations of [while True: body].  The loop has no [break]:
    the only way out is an exception, which shows as [Raise]. *)
Fixpoint while_True (n : nat) (body : M unit) : M unit :=
  match n with
  | O => mret tt
  | S n' => body ;; while_True n' body
  end.

(** *** State updates *)

Definition set_collector (c : SensorDataCollector) (w : world) : world :=
  {| collector := c; data_set := data_set w; data := data w; ext := ext w |}.
Definition set_data_set (d : DataSet) (w : world) : world :=
  {| collector := collector w; data_set := d; data := data w; ext := ext w |}.
Definition set_data (d : option (gmap Z pval)) (w : world) : world :=
  {| collector := collector w; data_set := data_set w; data := d; ext := ext w |}.
Definition set_ext (x : externals) (w : world) : world :=
  {| collector := collector w; data_set := data_set w; data := data w; ext := x |}.

Definition assign_temp1 (v : option num) : M unit := modify (fun w =>
  let d := data_set w in
  set_data_set {| temp1 := v; humi := humi d; press := press d; temp2 := temp2 d;
                  rgb888 := rgb888 d |} w).
Definition assign_humi (v : option num) : M unit := modify (fun w =>
  let d := data_set w in
  set_data_set {| temp1 := temp1 d; humi := v; press := press d; temp2 := temp2 d;
                  rgb888 := rgb888 d |} w).
Definition assign_press (v : option num) : M unit := modify (fun w =>
  let d := data_set w in
  set_data_set {| temp1 := temp1 d; humi := humi d; press := v; temp2 := temp2 d;
                  rgb888 := rgb888 d |} w).
Definition assign_temp2 (v : option num) : M unit := modify (fun w =>
  let d := data_set w in
  set_data_set {| temp1 := temp1 d; humi := humi d; press := press d; temp2 := v;
                  rgb888 := rgb888 d |} w).
Definition assign_rgb888 (v : Z) : M unit := modify (fun w =>
  let d := data_set w in
  set_data_set {| temp1 := temp1 d; humi := humi d; press := press d; temp2 := temp2 d;
                  rgb888 := v |} w).

Definition assign_prev_temp1 (v : option num) : M unit := modify (fun w =>
  let c := collector w in
  set_collector {| prev_temp1 := v; prev_humi := prev_humi c; prev_temp2 := prev_temp2 c;
                   prev_press := prev_press c |} w).
Definition assign_prev_humi (v : option num) : M unit := modify (fun w =>
  let c := collector w in
  set_collector {| prev_temp1 := prev_temp1 c; prev_humi := v; prev_temp2 := prev_temp2 c;
                   prev_press := prev_press c |} w).
Definition assign_prev_temp2 (v : option num) : M unit := modify (fun w =>
  let c := collector w in
  set_collector {| prev_temp1 := prev_temp1 c; prev_humi := prev_humi c; prev_temp2 := v;
                   prev_press := prev_press c |} w).
Definition assign_prev_press (v : option num) : M unit := modify (fun w =>
  let c := collector w in
  set_collector {| prev_temp1 := prev_temp1 c; prev_humi := prev_humi c;
                   prev_temp2 := prev_temp2 c; prev_press := v |} w).

(** *** Calls to the collaborators

    [drop_x k] is what is left of the collaborators after [k] more calls of
    [x]: its first [k] answers are used up. *)

Definition drop_shtc3 (k : nat) (x : externals) : externals :=
  {| shtc3 := fun i => shtc3 x (k + i)%nat; lps22hb := lps22hb x; tcs34725 := tcs34725 x;
     isStatusOk := isStatusOk x; lbs := lbs x; gnss := gnss x; tsl := tsl x;
     ticks := ticks x |}.
Definition drop_lps22hb (k : nat) (x : externals) : externals :=
  {| shtc3 := shtc3 x; lps22hb := fun i => lps22hb x (k + i)%nat; tcs34725 := tcs34725 x;
     isStatusOk := isStatusOk x; lbs := lbs x; gnss := gnss x; tsl := tsl x;
     ticks := ticks x |}.
Definition drop_tcs34725 (k : nat) (x : externals) : externals :=
  {| shtc3 := shtc3 x; lps22hb := lps22hb x; tcs34725 := fun i => tcs34725 x (k + i)%nat;
     isStatusOk := isStatusOk x; lbs := lbs x; gnss := gnss x; tsl := tsl x;
     ticks := ticks x |}.
Definition drop_isStatusOk (k : nat) (x : externals) : externals :=
  {| shtc3 := shtc3 x; lps22hb := lps22hb x; tcs34725 := tcs34725 x;
     isStatusOk := fun i => isStatusOk x (k + i)%nat; lbs := lbs x; gnss := gnss x;
     tsl := tsl x; ticks := ticks x |}.
Definition drop_lbs (k : nat) (x : externals) : externals :=
  {| shtc3 := shtc3 x; lps22hb := lps22hb x; tcs34725 := tcs34725 x;
     isStatusOk := isStatusOk x; lbs := fun i => lbs x (k + i)%nat; gnss := gnss x;
     tsl := tsl x; ticks := ticks x |}.
Definition drop_gnss (k : nat) (x : externals) : externals :=
  {| shtc3 := shtc3 x; lps22hb := lps22hb x; tcs34725 := tcs34725 x;
     isStatusOk := isStatusOk x; lbs := lbs x; gnss := fun i => gnss x (k + i)%nat;
     tsl := tsl x; ticks := ticks x |}.
Definition drop_tsl (k : nat) (x : externals) : externals :=
  {| shtc3 := shtc3 x; lps22hb := lps22hb x; tcs34725 := tcs34725 x;
     isStatusOk := isStatusOk x; lbs := lbs x; gnss := gnss x;
     tsl := fun i => tsl x (k + i)%nat; ticks := ticks x |}.
Definition drop_ticks (k : nat) (x : externals) : externals :=
  {| shtc3 := shtc3 x; lps22hb := lps22hb x; tcs34725 := tcs34725 x;
     isStatusOk := isStatusOk x; lbs := lbs x; gnss := gnss x; tsl := tsl x;
     ticks := fun i => ticks x (k + i)%nat |}.

(** A call emits its event, uses up the next answer of the collaborator and
    returns it or raises it. *)
Definition answer {A} (e : event) (r : result A) (x : externals) : M A := fun w =>
  Out r (set_ext x w) [e].

Definition getTempAndHumi : M (num * num) := fun w =>
  answer EGetTempAndHumi (shtc3 (ext w) 0%nat) (drop_shtc3 1 (ext w)) w.
Definition getTempAndPressure : M (num * num) := fun w =>
  answer EGetTempAndPressure (lps22hb (ext w) 0%nat) (drop_lps22hb 1 (ext w)) w.
Definition getRGBValue : M Z := fun w =>
  answer EGetRGBValue (tcs34725 (ext w) 0%nat) (drop_tcs34725 1 (ext w)) w.
Definition qth_isStatusOk : M bool := fun w =>
  answer EIsStatusOk (isStatusOk (ext w) 0%nat) (drop_isStatusOk 1 (ext w)) w.
Definition qth_sendLbs : M bool := fun w =>
  answer ESendLbs (lbs (ext w) 0%nat) (drop_lbs 1 (ext w)) w.
Definition qth_sendGnss : M bool := fun w =>
  answer ESendGnss (gnss (ext w) 0%nat) (drop_gnss 1 (ext w)) w.
Definition qth_sendTsl (profile : Z) (payload : gmap Z pval) : M bool := fun w =>
  answer (ESendTsl profile payload) (tsl (ext w) 0%nat) (drop_tsl 1 (ext w)) w.
Definition ticks_ms : M Z := fun w =>
  answer ETicksMs (Ok (ticks (ext w) 0%nat)) (drop_ticks 1 (ext w)) w.

Definition qth_start : M unit := emit EStart.
Definition sleep (seconds : Z) : M unit := emit (ESleep seconds).
Definition logger_info (msg : string) : M unit := emit (ELog INFO msg).
Definition logger_error (msg : string) : M unit := emit (ELog ERROR msg).
Definition print (e : exn) : M unit := emit (EPrint e).

(** [DataSet.dataShow] logs the five fields. *)
Definition dataShow : M unit := fun w => Out (Ok tt) w [EDataShow (data_set w)].

(** ** SensorDataCollector *)

(** The guard of lines 61, 65, 75 and 80:
    [self.prev_x is None or abs(x - self.prev_x) > 1]. *)
Definition is_None_or_changed (prev : option num) (x : num) : bool :=
  match prev with
  | None => true
  | Some p => num_gt (num_abs (num_sub x p)) num_one
  end.

(** The first [try] statement of [getSensorData], lines 59-70. *)
Definition sample_shtc3 : M unit :=
  try_except (
    '(t1, h) ← getTempAndHumi;
    self ← gets collector;
    (if is_None_or_changed (prev_temp1 self) t1
     then assign_temp1 (Some t1) ;; assign_prev_temp1 (Some t1)
     else assign_temp1 None) ;;
    self ← gets collector;
    (if is_None_or_changed (prev_humi self) h
     then assign_humi (Some h) ;; assign_prev_humi (Some h)
     else assign_humi None)
  ) (fun e => logger_error ("shtc3 get sensor data failed, " +:+ exn_str e)).

(** The second [try] statement, lines 72-86. *)
Definition sample_lps22hb : M unit :=
  try_except (
    '(p, t2) ← getTempAndPressure;
    self ← gets collector;
    (if is_None_or_changed (prev_temp2 self) t2
     then assign_temp2 (Some t2) ;; assign_prev_temp2 (Some t2)
     else assign_temp2 None) ;;
    self ← gets collector;
    (if is_None_or_changed (prev_press self) p
     then assign_press (Some p) ;; assign_prev_press (Some p)
     else assign_press None)
  ) (fun e => logger_error ("lps22hb get sensor data failed, " +:+ exn_str e)).

(** The third [try] statement, lines 88-91. *)
Definition sample_tcs34725 : M unit :=
  try_except (
    rgb ← getRGBValue;
    assign_rgb888 rgb
  ) (fun e => logger_error ("tcs34725 get sensor data failed, " +:+ exn_str e)).

(** [SensorDataCollector.getSensorData] *)
Definition getSensorData : M unit :=
  with_data_set (
    sample_shtc3 ;;
    sample_lps22hb ;;
    sample_tcs34725 ;;
    dataShow
  ).

(** [SensorDataCollector.__call__], its first [n] rounds. *)
Definition SensorDataCollector_call (n : nat) : M unit :=
  while_True n (getSensorData ;; sleep 1).

(** ** SensorDataUploader *)

(** The body of the loop of [sendLbs], lines 104-107. *)
Definition sendLbs_attempt : M control :=
  ok ← qth_sendLbs;
  if (ok : bool) then logger_info "upload LBS success" ;; mret Break
  else sleep 1 ;; mret Continue.

(** [SensorDataUploader.sendLbs].  The method has no [return] statement: it
    hands back [None] on every path. *)
Definition sendLbs : M pyval :=
  exhausted ← for_range 10 sendLbs_attempt;
  (if (exhausted : bool) then logger_info "upload LBS fail" else mret tt) ;;
  mret PyNone.

(** The body of the loop of [sendGnss], lines 113-116. *)
Definition sendGnss_attempt : M control :=
  ok ← qth_sendGnss;
  if (ok : bool) then logger_info "upload GNSS success" ;; mret Break
  else sleep 1 ;; mret Continue.

(** [SensorDataUploader.sendGnss], likewise. *)
Definition sendGnss : M pyval :=
  exhausted ← for_range 10 sendGnss_attempt;
  (if (exhausted : bool) then logger_info "upload GNSS fail" else mret tt) ;;
  mret PyNone.

(** A read of the local [data]: it raises while the name is unbound. *)
Definition load_data : M (gmap Z pval) :=
  d ← gets data;
  match d with
  | Some d => mret d
  | None => raise (NameError "data")
  end.

(** [data = d] *)
Definition store_data (d : gmap Z pval) : M unit := modify (set_data (Some d)).

(** [data.update({k: v})]: the dict [data] refers to is changed in place. *)
Definition data_update (k : Z) (v : pval) : M unit :=
  d ← load_data;
  store_data (<[k := v]> d).

(** Payload assembly, lines 139-157: the two [if timestamp % ...] statements. *)
Definition assemble (timestamp : Z) : M unit :=
  (if timestamp `mod` 5 =? 0 then
     ds ← gets data_set;
     store_data {[ 7 := Channels {[ 1 := Z.land (Z.shiftr (rgb888 ds) 16) 255;
                                    2 := Z.land (Z.shiftr (rgb888 ds) 8) 255;
                                    3 := Z.land (rgb888 ds) 255 ]} ]}
   else mret tt) ;;
  (if timestamp `mod` 1 =? 0 then
     ds ← gets data_set;
     match temp1 ds with Some v => data_update 3 (Scalar v) | None => mret tt end ;;
     match humi ds with Some v => data_update 4 (Scalar v) | None => mret tt end ;;
     match temp2 ds with Some v => data_update 5 (Scalar v) | None => mret tt end ;;
     match press ds with Some v => data_update 6 (Scalar v) | None => mret tt end
   else mret tt).

(** Dispatch, lines 158-159. *)
Definition dispatch : M unit :=
  d ← load_data;
  result ← qth_sendTsl 1 d;
  logger_info ("SensorDataUploader upload result: " +:+ str (PyBool result)).

(** The location reports of a round, lines 160-167. *)
Definition report_location (timestamp : Z) : M unit :=
  (if timestamp `mod` 1800 =? 0 then
     result ← sendLbs;
     logger_info ("SensorDataUploader upload LBS result: " +:+ str result)
   else mret tt) ;;
  (if timestamp `mod` 60 =? 0 then
     result ← sendGnss;
     logger_info ("SensorDataUploader upload GNSS result: " +:+ str result)
   else mret tt).

(** The statements under [try] in the upload loop, lines 137-169. *)
Definition upload_try : M unit :=
  ok ← qth_isStatusOk;
  if (ok : bool) then
    t ← ticks_ms;
    let timestamp := t `div` 1000 in
    assemble timestamp ;;
    dispatch ;;
    report_location timestamp
  else
    logger_error "qth server connect error".

(** One round of the upload loop, lines 135-172. *)
Definition upload_tick : M unit :=
  with_data_set (try_except upload_try (fun e => print e)) ;;
  sleep 1.

(** The body of the handshake loop, lines 125-127. *)
Definition poll_status : M control :=
  ok ← qth_isStatusOk;
  if (ok : bool) then mret Break
  else sleep 1 ;; mret Continue.

(** The handshake loop of lines 124-127: [true] when all 30 polls failed. *)
Definition wait_ready : M bool := for_range 30 poll_status.

(** What follows a handshake that succeeded, lines 132-172, with the first
    [n] rounds of the loop. *)
Definition active_reporting (n : nat) : M unit :=
  sendLbs ;;
  sendGnss ;;
  while_True n upload_tick.

(** [SensorDataUploader.__call__], with the first [n] rounds of its loop.
    The locals of the call start unbound. *)
Definition SensorDataUploader_call (n : nat) : M unit :=
  modify (set_data None) ;;
  qth_start ;;
  exhausted ← wait_ready;
  if (exhausted : bool) then
    logger_error "can not connect to qth server, exist!!!"
  else
    active_reporting n.


(** ** Vocabulary of the properties *)

(** The change filter of one metric, as a relation between the memo [prev]
    before the round, the sampled value [v], and the field and memo after. *)
Definition filter_contract (prev : option num) (v : num) (field' prev' : option num) : Prop :=
  (prev = None -> field' = Some v /\ prev' = Some v) /\
  (forall p, prev = Some p -> num_gt (num_abs (num_sub v p)) num_one = true ->
     field' = Some v /\ prev' = Some v) /\
  (forall p, prev = Some p -> num_gt (num_abs (num_sub v p)) num_one = false ->
     field' = None /\ prev' = Some p) /\
  (forall p, prev = Some p -> num_eq (num_abs (num_sub v p)) num_one = true ->
     field' = None /\ prev' = Some p).

(** A filtered field of the shared set is the no-change marker or the memo
    of its metric. *)
Definition field_tracks_memo (field prev : option num) : Prop :=
  field = None \/ field = prev.

(** The world after the collaborators moved on by [f]. *)
Definition with_ext (f : externals -> externals) (w : world) : world :=
  set_ext (f (ext w)) w.

(** The events [t], [k] times over. *)
Definition times (k : nat) (t : list event) : list event := concat (replicate k t).

(** How often an event of the kind [p] occurs in [t]. *)
Fixpoint count (p : event -> bool) (t : list event) : nat :=
  match t with
  | [] => 0%nat
  | e :: t' => ((if p e then 1 else 0) + count p t')%nat
  end.

Definition is_ESendLbs (e : event) : bool :=
  match e with ESendLbs => true | _ => false end.
Definition is_ESendGnss (e : event) : bool :=
  match e with ESendGnss => true | _ => false end.
Definition is_ESendTsl (e : event) : bool :=
  match e with ESendTsl _ _ => true | _ => false end.
Definition is_EIsStatusOk (e : event) : bool :=
  match e with EIsStatusOk => true | _ => false end.
Definition is_ESleep (e : event) : bool :=
  match e with ESleep _ => true | _ => false end.

(** ** Closed forms used by the proofs *)

(** [o] with the events [t] emitted before it. *)
Definition prefix {A} (t : list event) (o : outcome A) : outcome A :=
  Out (res o) (after o) (t ++ events o).

(** The field written by a guarded assignment, and the memo it leaves. *)
Definition filtered (prev : option num) (x : num) : option num :=
  if is_None_or_changed prev x then Some x else None.
Definition memo (prev : option num) (x : num) : option num :=
  if is_None_or_changed prev x then Some x else prev.

(** The world after each of the three [try] statements of a sampling round. *)
Definition after_shtc3 (w : world) : world :=
  match shtc3 (ext w) 0%nat with
  | Ok (t1, h) =>
      let c := collector w in
      let d := data_set w in
      {| collector := {| prev_temp1 := memo (prev_temp1 c) t1;
                         prev_humi := memo (prev_humi c) h;
                         prev_temp2 := prev_temp2 c; prev_press := prev_press c |};
         data_set := {| temp1 := filtered (prev_temp1 c) t1;
                        humi := filtered (prev_humi c) h;
                        press := press d; temp2 := temp2 d; rgb888 := rgb888 d |};
         data := data w;
         ext := drop_shtc3 1 (ext w) |}
  | Raise _ => set_ext (drop_shtc3 1 (ext w)) w
  end.

Definition after_lps22hb (w : world) : world :=
  match lps22hb (ext w) 0%nat with
  | Ok (p, t2) =>
      let c := collector w in
      let d := data_set w in
      {| collector := {| prev_temp1 := prev_temp1 c; prev_humi := prev_humi c;
                         prev_temp2 := memo (prev_temp2 c) t2;
                         prev_press := memo (prev_press c) p |};
         data_set := {| temp1 := temp1 d; humi := humi d;
                        press := filtered (prev_press c) p;
                        temp2 := filtered (prev_temp2 c) t2; rgb888 := rgb888 d |};
         data := data w;
         ext := drop_lps22hb 1 (ext w) |}
  | Raise _ => set_ext (drop_lps22hb 1 (ext w)) w
  end.

Definition after_tcs34725 (w : world) : world :=
  match tcs34725 (ext w) 0%nat with
  | Ok rgb =>
      let d := data_set w in
      {| collector := collector w;
         data_set := {| temp1 := temp1 d; humi := humi d; press := press d;
                        temp2 := temp2 d; rgb888 := rgb |};
         data := data w;
         ext := drop_tcs34725 1 (ext w) |}
  | Raise _ => set_ext (drop_tcs34725 1 (ext w)) w
  end.

(** What a [try] statement of the round logs: nothing, or the failure. *)
Definition failure_log {A} (r : result A) (sensor : string) : list event :=
  match r with
  | Ok _ => []
  | Raise e => [ELog ERROR (sensor +:+ " get sensor data failed, " +:+ exn_str e)]
  end.

(** The three channels of a packed color value, as the nested dict. *)
Definition channels (rgb : Z) : gmap Z Z :=
  {[ 1 := Z.land (Z.shiftr rgb 16) 255; 2 := Z.land (Z.shiftr rgb 8) 255;
     3 := Z.land rgb 255 ]}.

(** The entry of a filtered field: present when the field is not [None]. *)
Definition with_metric (k : Z) (field : option num) (d : gmap Z pval) : gmap Z pval :=
  match field with
  | Some v => <[k := Scalar v]> d
  | None => d
  end.

(** ** Vocabulary of the further properties *)

(** [main], lines 183-210: the state the two threads start on, the objects
    as their constructors leave them. *)
Definition main (x : externals) : world :=
  {| collector := SensorDataCollector_init; data_set := DataSet_init; data := None;
     ext := x |}.

(** Every event [m] emits satisfies [P], from whatever world it runs. *)
Definition emits {A} (P : event -> Prop) (m : M A) : Prop :=
  forall w, Forall P (events (m w)).

(** [m] keeps [Q]: from a world where [Q] holds it ends in one. *)
Definition keeps {A} (Q : world -> Prop) (m : M A) : Prop :=
  forall w, Q w -> Q (after (m w)).

Definition is_lock (e : event) : bool :=
  match e with EAcquire | ERelease => true | _ => false end.

(** Whether a call of a sensor or of the client returned, rather than
    raised. *)
Definition returned {A} (r : result A) : bool :=
  match r with Ok _ => true | Raise _ => false end.

(** The dict [d] after the four [update] statements of lines 150-157. *)
Definition with_metrics (ds : DataSet) (d : gmap Z pval) : gmap Z pval :=
  with_metric 6 (press ds) (with_metric 5 (temp2 ds) (with_metric 4 (humi ds)
    (with_metric 3 (temp1 ds) d))).

(** The dict built on a multiple of 5, lines 141-157. *)
Definition fresh_payload (ds : DataSet) : gmap Z pval :=
  with_metrics ds {[ 7 := Channels (channels (rgb888 ds)) ]}.


End Sensorhub.

Arguments Out {num A} res after events.
Arguments res {num A} o.
Arguments after {num A} o.
Arguments events {num A} o.

(** ** Concrete rounds

    Worlds over the integers, used to run the model on explicit inputs. *)

Module Examples.

(** Collaborators that always give the same answers. *)
Definition steady (a b : result (Z * Z)) (c : result Z) (status l g t : nat -> result bool)
    (clock : nat -> Z) : externals :=
  {| shtc3 := fun _ => a; lps22hb := fun _ => b; tcs34725 := fun _ => c;
     isStatusOk := status; lbs := l; gnss := g; tsl := t; ticks := clock |}.

Definition yes : nat -> result bool := fun _ => Ok true.
Definition no : nat -> result bool := fun _ => Ok false.

(** [false] for the first [k] calls, [true] from then on. *)
Definition after_failures (k : nat) : nat -> result bool := fun i => Ok (k <=? i)%nat.

(** The clock starts at [t0] milliseconds and advances a second per reading. *)
Definition clock_from (t0 : Z) : nat -> Z := fun i => t0 + 1000 * Z.of_nat i.

(** A sampling round in the middle of a run: temp1 moves from 20 to 21
    (exactly one unit), humidity has no memo yet, temp2 stays at 21, pressure
    moves from 1000 to 1002. *)
Definition sampling_midrun : world :=
  {| collector := {| prev_temp1 := Some 20; prev_humi := None; prev_temp2 := Some 21;
                     prev_press := Some 1000 |};
     data_set := DataSet_init;
     data := None;
     ext := steady (Ok (21, 50)) (Ok (1002, 21)) (Ok 0x112233) yes yes yes yes (clock_from 0) |}.

(** The first sampling round, with the SHTC3 read failing. *)
Definition first_round_shtc3_fails : world :=
  {| collector := SensorDataCollector_init;
     data_set := DataSet_init;
     data := None;
     ext := steady (Raise (ExternalError "I2C bus error")) (Ok (1002, 21)) (Ok 0x112233)
              yes yes yes yes (clock_from 0) |}.

(** The state the upload task runs on, given the client's answers and the
    clock; the shared set holds temp1 = 20 and a color, the other filtered
    fields are [None], and the sensors keep reading the same values. *)
Definition uploading (status l g t : nat -> result bool) (clock : nat -> Z) : world :=
  {| collector := {| prev_temp1 := Some 20; prev_humi := Some 50; prev_temp2 := Some 21;
                     prev_press := Some 1000 |};
     data_set := {| temp1 := Some 20; humi := None; press := None; temp2 := None;
                    rgb888 := 0x112233 |};
     data := None;
     ext := steady (Ok (20, 50)) (Ok (1000, 21)) (Ok 0x112233) status l g t clock |}.

(** The telemetry dict of the round at timestamp 100 of [uploading]. *)
Definition payload_100 : gmap Z pval :=
  {[ 7 := Channels {[ 1 := 0x11; 2 := 0x22; 3 := 0x33 ]}; 3 := Scalar 20 ]}.

(** The start of a run in which the SHTC3 reads the temperatures [temps] in
    turn ([other] once they are used up) and every other sample is [other]. *)
Definition reading {num : Type} `{Number num} (temps : list num) (other : num) : world :=
  {| collector := SensorDataCollector_init;
     data_set := DataSet_init;
     data := None;
     ext := {| shtc3 := fun i => Ok (nth i temps other, other);
               lps22hb := fun _ => Ok (other, other);
               tcs34725 := fun _ => Ok 0;
               isStatusOk := yes; lbs := yes; gnss := yes; tsl := yes;
               ticks := clock_from 0 |} |}.

(** The temp1 field and its memo after [n] sampling rounds. *)
Definition temp1_after {num : Type} `{Number num} (n : nat) (w : world) :
    option num * option num :=
  let w' := after (SensorDataCollector_call n w) in
  (temp1 (data_set w'), prev_temp1 (collector w')).

(** [false] for the first [k] calls, then [r]. *)
Definition fails_then (k : nat) (r : result bool) : nat -> result bool :=
  fun i => if (i <? k)%nat then Ok false else r.

(** A sampling task with every memo set, whose SHTC3 reads the temperatures
    [temps] in turn and then [last]. *)
Definition sampling (temps : list Z) (last : Z) : world :=
  {| collector := {| prev_temp1 := Some 20; prev_humi := Some 50; prev_temp2 := Some 21;
                     prev_press := Some 1000 |};
     data_set := {| temp1 := None; humi := None; press := None; temp2 := None;
                    rgb888 := 0x112233 |};
     data := None;
     ext := {| shtc3 := fun i => Ok (nth i temps last, 50);
               lps22hb := fun _ => Ok (1000, 21);
               tcs34725 := fun _ => Ok 0x112233;
               isStatusOk := yes; lbs := yes; gnss := yes; tsl := yes;
               ticks := clock_from 100000 |} |}.

(** A sampling task with every memo set and every field of the shared set
    holding the value of its memo, whose SHTC3 answers [reads]. *)
Definition drifting (reads : nat -> result (Z * Z)) : world :=
  {| collector := {| prev_temp1 := Some 20; prev_humi := Some 50; prev_temp2 := Some 21;
                     prev_press := Some 1000 |};
     data_set := {| temp1 := Some 20; humi := Some 50; press := Some 1000;
                    temp2 := Some 21; rgb888 := 0x112233 |};
     data := None;
     ext := {| shtc3 := reads;
               lps22hb := fun _ => Ok (1000, 21);
               tcs34725 := fun _ => Ok 0x112233;
               isStatusOk := yes; lbs := yes; gnss := yes; tsl := yes;
               ticks := clock_from 100000 |} |}.

(** The temperatures 21, 19, 21, 20 with the second read failing. *)
Definition drift_reads (i : nat) : result (Z * Z) :=
  match i with
  | 1%nat => Raise (ExternalError "i2c")
  | _ => Ok (nth i [21; 19; 21; 20] 20, 50)
  end.

(** The upload task after its round at timestamp 100 and a sampling round. *)
Definition uploading_at_101 : world :=
  after (getSensorData (after (upload_tick (uploading yes yes yes yes (clock_from 100000))))).

End Examples.

Section Properties.

Context {num : Type} `{Number num}.

Local Abbreviation world := (@world num).
Local Abbreviation externals := (@externals num).
Local Abbreviation event := (@event num).
Local Abbreviation outcome := (@outcome num).
Local Abbreviation M := (@M num).
Local Abbreviation pval := (@pval num).

(** * Properties *)
(** ** Running the monad *)

Lemma outcome_eta {A} (o : outcome A) : Out (res o) (after o) (events o) = o.
Proof. by destruct o. Qed.

Lemma prefix_nil {A} (o : outcome A) : prefix [] o = o.
Proof. apply outcome_eta. Qed.

Lemma prefix_prefix {A} (t1 t2 : list event) (o : outcome A) :
  prefix t1 (prefix t2 o) = prefix (t1 ++ t2) o.
Proof. unfold prefix. cbn. by rewrite app_assoc. Qed.

Lemma bind_Ok {A B} (m : M A) (f : A -> M B) (w w1 : world) (a : A) (t1 : list event) :
  m w = Out (Ok a) w1 t1 -> (m ≫= f) w = prefix t1 (f a w1).
Proof.
  intros E. unfold mbind, M_bind, prefix. rewrite E. by destruct (f a w1).
Qed.

Lemma bind_Raise {A B} (m : M A) (f : A -> M B) (w w1 : world) (e : exn) (t1 : list event) :
  m w = Out (Raise e) w1 t1 -> (m ≫= f) w = Out (Raise e) w1 t1.
Proof. intros E. unfold mbind, M_bind. by rewrite E. Qed.

(** ** The sampling round in closed form *)

Ltac unfold_M :=
  unfold with_data_set, try_except, answer, dataShow, logger_error, logger_info, print,
    sleep, qth_start, emit, gets, modify, raise, mbind, mret, M_bind, M_ret.

Ltac unfold_M_in H :=
  unfold with_data_set, try_except, answer, dataShow, logger_error, logger_info, print,
    sleep, qth_start, emit, gets, modify, raise, mbind, mret, M_bind, M_ret in H.

Ltac unfold_assign :=
  unfold assign_temp1, assign_humi, assign_temp2, assign_press, assign_rgb888,
    assign_prev_temp1, assign_prev_humi, assign_prev_temp2, assign_prev_press.

Lemma sample_shtc3_eq (w : world) :
  sample_shtc3 w =
  Out (Ok tt) (after_shtc3 w)
      (EGetTempAndHumi :: failure_log (shtc3 (ext w) 0%nat) "shtc3").
Proof.
  destruct w as [[p1 p2 p3 p4] [f1 f2 f3 f4 f5] d x].
  unfold sample_shtc3, getTempAndHumi, after_shtc3, filtered, memo.
  unfold_assign. unfold_M. cbn.
  destruct (shtc3 x 0%nat) as [[t1 h]|e]; cbn; [|done].
  destruct (is_None_or_changed p1 t1); cbn;
    by destruct (is_None_or_changed p2 h).
Qed.

Lemma sample_lps22hb_eq (w : world) :
  sample_lps22hb w =
  Out (Ok tt) (after_lps22hb w)
      (EGetTempAndPressure :: failure_log (lps22hb (ext w) 0%nat) "lps22hb").
Proof.
  destruct w as [[p1 p2 p3 p4] [f1 f2 f3 f4 f5] d x].
  unfold sample_lps22hb, getTempAndPressure, after_lps22hb, filtered, memo.
  unfold_assign. unfold_M. cbn.
  destruct (lps22hb x 0%nat) as [[p t2]|e]; cbn; [|done].
  destruct (is_None_or_changed p3 t2); cbn;
    by destruct (is_None_or_changed p4 p).
Qed.

Lemma sample_tcs34725_eq (w : world) :
  sample_tcs34725 w =
  Out (Ok tt) (after_tcs34725 w)
      (EGetRGBValue :: failure_log (tcs34725 (ext w) 0%nat) "tcs34725").
Proof.
  destruct w as [c [f1 f2 f3 f4 f5] d x].
  unfold sample_tcs34725, getRGBValue, after_tcs34725.
  unfold_assign. unfold_M. cbn.
  by destruct (tcs34725 x 0%nat) as [rgb|e].
Qed.

Lemma getSensorData_eq (w : world) :
  let w1 := after_shtc3 w in
  let w2 := after_lps22hb w1 in
  let w3 := after_tcs34725 w2 in
  getSensorData w =
  Out (Ok tt) w3
      (EAcquire ::
       (EGetTempAndHumi :: failure_log (shtc3 (ext w) 0%nat) "shtc3") ++
       (EGetTempAndPressure :: failure_log (lps22hb (ext w1) 0%nat) "lps22hb") ++
       (EGetRGBValue :: failure_log (tcs34725 (ext w2) 0%nat) "tcs34725") ++
       [EDataShow (data_set w3); ERelease]).
Proof.
  intros w1 w2 w3. unfold getSensorData, with_data_set.
  rewrite (bind_Ok _ _ _ _ _ _ (sample_shtc3_eq w)).
  rewrite (bind_Ok _ _ _ _ _ _ (sample_lps22hb_eq w1)).
  rewrite (bind_Ok _ _ _ _ _ _ (sample_tcs34725_eq w2)).
  unfold dataShow, prefix. cbn. fold w1 w2 w3.
  f_equal. f_equal. f_equal. repeat (rewrite <- app_assoc; simpl; f_equal).
Qed.


(** The three sensors of a round act on separate parts of the state. *)
Ltac case_read :=
  match goal with
  | |- context [shtc3 (ext ?w) 0%nat] =>
      destruct (shtc3 (ext w) 0%nat) as [[? ?]|?] eqn:?
  | |- context [lps22hb (ext ?w) 0%nat] =>
      destruct (lps22hb (ext w) 0%nat) as [[? ?]|?] eqn:?
  | |- context [tcs34725 (ext ?w) 0%nat] =>
      destruct (tcs34725 (ext w) 0%nat) as [?|?] eqn:?
  end; cbn in *.

Ltac run_round :=
  rewrite getSensorData_eq; unfold after_tcs34725, after_lps22hb, after_shtc3; cbn;
  repeat case_read.

Lemma getSensorData_res (w : world) : res (getSensorData w) = Ok tt.
Proof. by rewrite getSensorData_eq. Qed.

Lemma getSensorData_shtc3 (w : world) :
  let w' := after (getSensorData w) in
  match shtc3 (ext w) 0%nat with
  | Ok (t1, h) =>
      temp1 (data_set w') = filtered (prev_temp1 (collector w)) t1 /\
      prev_temp1 (collector w') = memo (prev_temp1 (collector w)) t1 /\
      humi (data_set w') = filtered (prev_humi (collector w)) h /\
      prev_humi (collector w') = memo (prev_humi (collector w)) h
  | Raise e =>
      temp1 (data_set w') = temp1 (data_set w) /\
      prev_temp1 (collector w') = prev_temp1 (collector w) /\
      humi (data_set w') = humi (data_set w) /\
      prev_humi (collector w') = prev_humi (collector w)
  end.
Proof. cbn zeta. run_round; auto. Qed.

Lemma getSensorData_lps22hb (w : world) :
  let w' := after (getSensorData w) in
  match lps22hb (ext w) 0%nat with
  | Ok (p, t2) =>
      temp2 (data_set w') = filtered (prev_temp2 (collector w)) t2 /\
      prev_temp2 (collector w') = memo (prev_temp2 (collector w)) t2 /\
      press (data_set w') = filtered (prev_press (collector w)) p /\
      prev_press (collector w') = memo (prev_press (collector w)) p
  | Raise e =>
      temp2 (data_set w') = temp2 (data_set w) /\
      prev_temp2 (collector w') = prev_temp2 (collector w) /\
      press (data_set w') = press (data_set w) /\
      prev_press (collector w') = prev_press (collector w)
  end.
Proof. cbn zeta. run_round; auto. Qed.

Lemma getSensorData_tcs34725 (w : world) :
  rgb888 (data_set (after (getSensorData w))) =
  match tcs34725 (ext w) 0%nat with
  | Ok rgb => rgb
  | Raise e => rgb888 (data_set w)
  end.
Proof. run_round; auto. Qed.

Lemma getSensorData_logs (w : world) :
  let t := events (getSensorData w) in
  (forall e, shtc3 (ext w) 0%nat = Raise e ->
     In (ELog ERROR ("shtc3 get sensor data failed, " +:+ exn_str e)) t) /\
  (forall e, lps22hb (ext w) 0%nat = Raise e ->
     In (ELog ERROR ("lps22hb get sensor data failed, " +:+ exn_str e)) t) /\
  (forall e, tcs34725 (ext w) 0%nat = Raise e ->
     In (ELog ERROR ("tcs34725 get sensor data failed, " +:+ exn_str e)) t).
Proof.
  cbn zeta. run_round; repeat split; intros e' E; inversion E; subst; cbn; tauto.
Qed.

Lemma filtered_memo_contract (prev : option num) (v : num) :
  filter_contract prev v (filtered prev v) (memo prev v).
Proof.
  unfold filter_contract, filtered, memo, is_None_or_changed.
  split; [|split; [|split]].
  - by intros ->.
  - by intros p -> ->.
  - by intros p -> ->.
  - intros p -> E. by rewrite (num_eq_not_gt _ _ E).
Qed.

Lemma while_True_Ok (body : M unit) :
  (forall w, res (body w) = Ok tt) ->
  forall n w, res (while_True n body w) = Ok tt.
Proof.
  intros Hbody n. induction n as [|n IH]; intros w; [done|].
  cbn [while_True]. unfold mbind, M_bind.
  specialize (Hbody w). destruct (body w) as [r w1 t1]. cbn in Hbody. subst r.
  specialize (IH w1). by destruct (while_True n body w1).
Qed.

Lemma collector_round_res (w : world) : res ((getSensorData ;; sleep 1) w) = Ok tt.
Proof.
  unfold mbind, M_bind. pose proof (getSensorData_res w) as E.
  destruct (getSensorData w) as [r w1 t1]. cbn in E. by subst r.
Qed.

(** C1: the change filter, applied to each of temp1, humidity, temp2 and
    pressure on its own: for a sampled value [v], an unset memo reports [v]
    and sets the memo to it; a set memo [p] with [abs(v - p) > 1] reports [v]
    and moves the memo to it; otherwise, and in particular when
    [abs(v - p) == 1], the field gets the no-change marker [None] and the
    memo stays [p]. *)
Theorem change_filter_contract (w : world) :
  let w' := after (getSensorData w) in
  (forall t1 h, shtc3 (ext w) 0%nat = Ok (t1, h) ->
     filter_contract (prev_temp1 (collector w)) t1
       (temp1 (data_set w')) (prev_temp1 (collector w')) /\
     filter_contract (prev_humi (collector w)) h
       (humi (data_set w')) (prev_humi (collector w'))) /\
  (forall p t2, lps22hb (ext w) 0%nat = Ok (p, t2) ->
     filter_contract (prev_temp2 (collector w)) t2
       (temp2 (data_set w')) (prev_temp2 (collector w')) /\
     filter_contract (prev_press (collector w)) p
       (press (data_set w')) (prev_press (collector w'))).
Proof.
  cbn zeta. split.
  - intros t1 h E. pose proof (getSensorData_shtc3 w) as S. cbn zeta in S.
    rewrite E in S. destruct S as (-> & -> & -> & ->).
    split; apply filtered_memo_contract.
  - intros p t2 E. pose proof (getSensorData_lps22hb w) as S. cbn zeta in S.
    rewrite E in S. destruct S as (-> & -> & -> & ->).
    split; apply filtered_memo_contract.
Qed.

(** C6: the three sensor reads of a sampling round are isolated from each
    other.  The round never raises; a read that raises is logged and leaves
    the fields and memos of its sensor as they were; a read that returns
    updates the fields of its sensor by the change filter (the color value
    as it is), whatever the other two reads do; and the sampling loop
    completes every round without an exception. *)
Theorem sampling_fault_isolation (w : world) :
  let o := getSensorData w in
  let w' := after o in
  res o = Ok tt /\
  (forall e, shtc3 (ext w) 0%nat = Raise e ->
     In (ELog ERROR ("shtc3 get sensor data failed, " +:+ exn_str e)) (events o) /\
     temp1 (data_set w') = temp1 (data_set w) /\
     humi (data_set w') = humi (data_set w) /\
     prev_temp1 (collector w') = prev_temp1 (collector w) /\
     prev_humi (collector w') = prev_humi (collector w)) /\
  (forall e, lps22hb (ext w) 0%nat = Raise e ->
     In (ELog ERROR ("lps22hb get sensor data failed, " +:+ exn_str e)) (events o) /\
     press (data_set w') = press (data_set w) /\
     temp2 (data_set w') = temp2 (data_set w) /\
     prev_press (collector w') = prev_press (collector w) /\
     prev_temp2 (collector w') = prev_temp2 (collector w)) /\
  (forall e, tcs34725 (ext w) 0%nat = Raise e ->
     In (ELog ERROR ("tcs34725 get sensor data failed, " +:+ exn_str e)) (events o) /\
     rgb888 (data_set w') = rgb888 (data_set w)) /\
  (forall t1 h, shtc3 (ext w) 0%nat = Ok (t1, h) ->
     filter_contract (prev_temp1 (collector w)) t1
       (temp1 (data_set w')) (prev_temp1 (collector w')) /\
     filter_contract (prev_humi (collector w)) h
       (humi (data_set w')) (prev_humi (collector w'))) /\
  (forall p t2, lps22hb (ext w) 0%nat = Ok (p, t2) ->
     filter_contract (prev_press (collector w)) p
       (press (data_set w')) (prev_press (collector w')) /\
     filter_contract (prev_temp2 (collector w)) t2
       (temp2 (data_set w')) (prev_temp2 (collector w'))) /\
  (forall rgb, tcs34725 (ext w) 0%nat = Ok rgb -> rgb888 (data_set w') = rgb) /\
  (forall n, res (SensorDataCollector_call n w) = Ok tt).
Proof.
  cbn zeta.
  pose proof (getSensorData_shtc3 w) as SA. pose proof (getSensorData_lps22hb w) as SB.
  pose proof (getSensorData_tcs34725 w) as SC.
  destruct (getSensorData_logs w) as (LA & LB & LC). cbn zeta in *.
  split; [apply getSensorData_res|].
  split; [intros e E; rewrite E in SA; destruct SA as (-> & -> & -> & ->); auto|].
  split; [intros e E; rewrite E in SB; destruct SB as (-> & -> & -> & ->); auto|].
  split; [intros e E; rewrite E in SC; auto|].
  split; [intros t1 h E; rewrite E in SA; destruct SA as (-> & -> & -> & ->);
          split; apply filtered_memo_contract|].
  split; [intros p t2 E; rewrite E in SB; destruct SB as (-> & -> & -> & ->);
          split; apply filtered_memo_contract|].
  split; [intros rgb E; by rewrite E in SC|].
  intros n. apply while_True_Ok, collector_round_res.
Qed.

Lemma filtered_tracks_memo (prev : option num) (v : num) :
  field_tracks_memo (filtered prev v) (memo prev v).
Proof. unfold field_tracks_memo, filtered, memo. destruct is_None_or_changed; auto. Qed.

Lemma memo_set (prev : option num) (v : num) : prev <> None -> memo prev v <> None.
Proof. unfold memo. by destruct is_None_or_changed. Qed.

(** C10, as amended: for each filtered metric, a sampling round whose read of
    the metric's sensor returns leaves the shared field either [None] or
    equal to the memo; a round keeps that relation when it held before the
    round (a read that raises leaves field and memo as they were); and a memo
    that is set stays set. *)
Theorem field_tracks_memo_kept (w : world) :
  let w' := after (getSensorData w) in
  (forall v, shtc3 (ext w) 0%nat = Ok v ->
     field_tracks_memo (temp1 (data_set w')) (prev_temp1 (collector w')) /\
     field_tracks_memo (humi (data_set w')) (prev_humi (collector w'))) /\
  (forall v, lps22hb (ext w) 0%nat = Ok v ->
     field_tracks_memo (temp2 (data_set w')) (prev_temp2 (collector w')) /\
     field_tracks_memo (press (data_set w')) (prev_press (collector w'))) /\
  (field_tracks_memo (temp1 (data_set w)) (prev_temp1 (collector w)) ->
   field_tracks_memo (temp1 (data_set w')) (prev_temp1 (collector w'))) /\
  (field_tracks_memo (humi (data_set w)) (prev_humi (collector w)) ->
   field_tracks_memo (humi (data_set w')) (prev_humi (collector w'))) /\
  (field_tracks_memo (temp2 (data_set w)) (prev_temp2 (collector w)) ->
   field_tracks_memo (temp2 (data_set w')) (prev_temp2 (collector w'))) /\
  (field_tracks_memo (press (data_set w)) (prev_press (collector w)) ->
   field_tracks_memo (press (data_set w')) (prev_press (collector w'))) /\
  (prev_temp1 (collector w) <> None -> prev_temp1 (collector w') <> None) /\
  (prev_humi (collector w) <> None -> prev_humi (collector w') <> None) /\
  (prev_temp2 (collector w) <> None -> prev_temp2 (collector w') <> None) /\
  (prev_press (collector w) <> None -> prev_press (collector w') <> None).
Proof.
  cbn zeta.
  pose proof (getSensorData_shtc3 w) as SA. pose proof (getSensorData_lps22hb w) as SB.
  cbn zeta in *.
  destruct (shtc3 (ext w) 0%nat) as [[t1 h]|eA]; destruct SA as (-> & -> & -> & ->);
    destruct (lps22hb (ext w) 0%nat) as [[p t2]|eB]; destruct SB as (-> & -> & -> & ->).
  all: repeat split; try done; intros;
    auto using filtered_tracks_memo, memo_set.
Qed.

(** ** Bounded loops *)

Lemma count_app (p : event -> bool) (t1 t2 : list event) :
  count p (t1 ++ t2) = (count p t1 + count p t2)%nat.
Proof. induction t1 as [|e t1 IH]; cbn; [done|]. rewrite IH. lia. Qed.

Lemma count_times (p : event -> bool) (k : nat) (t : list event) :
  count p (times k t) = (k * count p t)%nat.
Proof.
  unfold times. induction k as [|k IH]; cbn; [done|].
  rewrite count_app, IH. lia.
Qed.

Lemma for_range_Break (body : M control) (n : nat) (w w1 : world) (t : list event) :
  body w = Out (Ok Break) w1 t ->
  for_range (S n) body w = Out (Ok false) w1 t.
Proof.
  intros E. cbn [for_range]. rewrite (bind_Ok _ _ _ _ _ _ E).
  unfold prefix. cbn. by rewrite app_nil_r.
Qed.

Lemma for_range_Raise (body : M control) (n : nat) (w w1 : world) (e : exn)
    (t : list event) :
  body w = Out (Raise e) w1 t ->
  for_range (S n) body w = Out (Raise e) w1 t.
Proof. intros E. cbn [for_range]. by rewrite (bind_Raise _ _ _ _ _ _ E). Qed.

Lemma for_range_S_Continue (body : M control) (n : nat) (w w1 : world) (t : list event) :
  body w = Out (Ok Continue) w1 t ->
  for_range (S n) body w = prefix t (for_range n body w1).
Proof. intros E. cbn [for_range]. by rewrite (bind_Ok _ _ _ _ _ _ E). Qed.

(** [k] iterations that fall through, each moving the world by [skip 1] and
    emitting [t], leave the rest of the loop to run. *)
Lemma for_range_Continue (body : M control) (t : list event) (skip : nat -> world -> world) :
  (forall w, skip 0%nat w = w) ->
  (forall k w, skip k (skip 1%nat w) = skip (S k) w) ->
  forall k n w,
    (forall j, (j < k)%nat ->
       body (skip j w) = Out (Ok Continue) (skip 1%nat (skip j w)) t) ->
    for_range (k + n) body w = prefix (times k t) (for_range n body (skip k w)).
Proof.
  intros skip0 skipS k. induction k as [|k IH]; intros n w Hk.
  - by rewrite skip0, prefix_nil.
  - pose proof (Hk 0%nat ltac:(lia)) as E0. rewrite skip0 in E0.
    cbn [Nat.add]. rewrite (for_range_S_Continue _ _ _ _ _ E0).
    rewrite (IH n (skip 1%nat w)).
    + by rewrite skipS, prefix_prefix.
    + intros j Hj. rewrite !skipS. apply Hk. lia.
Qed.

Lemma with_ext_0 (drop : nat -> externals -> externals) :
  (forall x, drop 0%nat x = x) -> forall w, with_ext (drop 0%nat) w = w.
Proof. intros E [c d dt x]. unfold with_ext, set_ext. cbn. by rewrite E. Qed.

Lemma drop_isStatusOk_0 (x : externals) : drop_isStatusOk 0 x = x.
Proof. by destruct x. Qed.
Lemma drop_lbs_0 (x : externals) : drop_lbs 0 x = x.
Proof. by destruct x. Qed.
Lemma drop_gnss_0 (x : externals) : drop_gnss 0 x = x.
Proof. by destruct x. Qed.

(** *** The attempts of the three loops *)

Lemma sendLbs_attempt_eq (w : world) :
  sendLbs_attempt w =
  match lbs (ext w) 0%nat with
  | Ok true => Out (Ok Break) (with_ext (drop_lbs 1) w)
                 [ESendLbs; ELog INFO "upload LBS success"]
  | Ok false => Out (Ok Continue) (with_ext (drop_lbs 1) w) [ESendLbs; ESleep 1]
  | Raise e => Out (Raise e) (with_ext (drop_lbs 1) w) [ESendLbs]
  end.
Proof.
  unfold sendLbs_attempt, qth_sendLbs. unfold_M.
  by destruct (lbs (ext w) 0%nat) as [[|]|e].
Qed.

Lemma sendGnss_attempt_eq (w : world) :
  sendGnss_attempt w =
  match gnss (ext w) 0%nat with
  | Ok true => Out (Ok Break) (with_ext (drop_gnss 1) w)
                 [ESendGnss; ELog INFO "upload GNSS success"]
  | Ok false => Out (Ok Continue) (with_ext (drop_gnss 1) w) [ESendGnss; ESleep 1]
  | Raise e => Out (Raise e) (with_ext (drop_gnss 1) w) [ESendGnss]
  end.
Proof.
  unfold sendGnss_attempt, qth_sendGnss. unfold_M.
  by destruct (gnss (ext w) 0%nat) as [[|]|e].
Qed.

Lemma poll_status_eq (w : world) :
  poll_status w =
  match isStatusOk (ext w) 0%nat with
  | Ok true => Out (Ok Break) (with_ext (drop_isStatusOk 1) w) [EIsStatusOk]
  | Ok false => Out (Ok Continue) (with_ext (drop_isStatusOk 1) w) [EIsStatusOk; ESleep 1]
  | Raise e => Out (Raise e) (with_ext (drop_isStatusOk 1) w) [EIsStatusOk]
  end.
Proof.
  unfold poll_status, qth_isStatusOk. unfold_M.
  by destruct (isStatusOk (ext w) 0%nat) as [[|]|e].
Qed.

(** [k] failed attempts in a row. *)
Lemma sendLbs_attempts_fail (k n : nat) (w : world) :
  (forall i, (i < k)%nat -> lbs (ext w) i = Ok false) ->
  for_range (k + n) sendLbs_attempt w =
  prefix (times k [ESendLbs; ESleep 1])
    (for_range n sendLbs_attempt (with_ext (drop_lbs k) w)).
Proof.
  intros Hk.
  apply (for_range_Continue _ _ (fun j => with_ext (drop_lbs j)));
    [apply with_ext_0, drop_lbs_0 | done |].
  intros j Hj. rewrite sendLbs_attempt_eq. cbn.
  by rewrite Nat.add_0_r, (Hk j Hj).
Qed.

Lemma sendGnss_attempts_fail (k n : nat) (w : world) :
  (forall i, (i < k)%nat -> gnss (ext w) i = Ok false) ->
  for_range (k + n) sendGnss_attempt w =
  prefix (times k [ESendGnss; ESleep 1])
    (for_range n sendGnss_attempt (with_ext (drop_gnss k) w)).
Proof.
  intros Hk.
  apply (for_range_Continue _ _ (fun j => with_ext (drop_gnss j)));
    [apply with_ext_0, drop_gnss_0 | done |].
  intros j Hj. rewrite sendGnss_attempt_eq. cbn.
  by rewrite Nat.add_0_r, (Hk j Hj).
Qed.

Lemma polls_fail (k n : nat) (w : world) :
  (forall i, (i < k)%nat -> isStatusOk (ext w) i = Ok false) ->
  for_range (k + n) poll_status w =
  prefix (times k [EIsStatusOk; ESleep 1])
    (for_range n poll_status (with_ext (drop_isStatusOk k) w)).
Proof.
  intros Hk.
  apply (for_range_Continue _ _ (fun j => with_ext (drop_isStatusOk j)));
    [apply with_ext_0, drop_isStatusOk_0 | done |].
  intros j Hj. rewrite poll_status_eq. cbn.
  by rewrite Nat.add_0_r, (Hk j Hj).
Qed.

(** *** The retry loops in closed form *)

Lemma for_range_0 (body : M control) (w : world) :
  for_range 0 body w = Out (Ok true) w [].
Proof. done. Qed.

Lemma sendLbs_all_fail (w : world) :
  (forall i, (i < 10)%nat -> lbs (ext w) i = Ok false) ->
  sendLbs w =
  Out (Ok PyNone) (with_ext (drop_lbs 10) w)
      (times 10 [ESendLbs; ESleep 1] ++ [ELog INFO "upload LBS fail"]).
Proof.
  intros Hk. unfold sendLbs.
  erewrite bind_Ok;
    [|change 10%nat with (10 + 0)%nat at 1;
      rewrite (sendLbs_attempts_fail _ _ _ Hk), for_range_0; reflexivity].
  unfold_M. unfold prefix. cbn -[times]. by rewrite app_nil_r.
Qed.

Lemma sendLbs_success (k : nat) (w : world) :
  (k < 10)%nat ->
  (forall i, (i < k)%nat -> lbs (ext w) i = Ok false) ->
  lbs (ext w) k = Ok true ->
  sendLbs w =
  Out (Ok PyNone) (with_ext (drop_lbs 1) (with_ext (drop_lbs k) w))
      (times k [ESendLbs; ESleep 1] ++ [ESendLbs; ELog INFO "upload LBS success"]).
Proof.
  intros Hlt Hk Hok. unfold sendLbs.
  erewrite bind_Ok.
  2:{ replace 10%nat with (k + S (9 - k))%nat by lia.
      rewrite (sendLbs_attempts_fail _ _ _ Hk).
      erewrite for_range_Break;
        [|rewrite sendLbs_attempt_eq; cbn; rewrite Nat.add_0_r, Hok; reflexivity].
      reflexivity. }
  unfold_M. unfold prefix. cbn -[times]. by rewrite app_nil_r.
Qed.

Lemma sendGnss_all_fail (w : world) :
  (forall i, (i < 10)%nat -> gnss (ext w) i = Ok false) ->
  sendGnss w =
  Out (Ok PyNone) (with_ext (drop_gnss 10) w)
      (times 10 [ESendGnss; ESleep 1] ++ [ELog INFO "upload GNSS fail"]).
Proof.
  intros Hk. unfold sendGnss.
  erewrite bind_Ok;
    [|change 10%nat with (10 + 0)%nat at 1;
      rewrite (sendGnss_attempts_fail _ _ _ Hk), for_range_0; reflexivity].
  unfold_M. unfold prefix. cbn -[times]. by rewrite app_nil_r.
Qed.

Lemma sendGnss_success (k : nat) (w : world) :
  (k < 10)%nat ->
  (forall i, (i < k)%nat -> gnss (ext w) i = Ok false) ->
  gnss (ext w) k = Ok true ->
  sendGnss w =
  Out (Ok PyNone) (with_ext (drop_gnss 1) (with_ext (drop_gnss k) w))
      (times k [ESendGnss; ESleep 1] ++ [ESendGnss; ELog INFO "upload GNSS success"]).
Proof.
  intros Hlt Hk Hok. unfold sendGnss.
  erewrite bind_Ok.
  2:{ replace 10%nat with (k + S (9 - k))%nat by lia.
      rewrite (sendGnss_attempts_fail _ _ _ Hk).
      erewrite for_range_Break;
        [|rewrite sendGnss_attempt_eq; cbn; rewrite Nat.add_0_r, Hok; reflexivity].
      reflexivity. }
  unfold_M. unfold prefix. cbn -[times]. by rewrite app_nil_r.
Qed.

Ltac count_events :=
  rewrite ?count_app, ?count_times; cbn; lia.

(** C2, as amended: the retry loop of the LBS and of the GNSS report makes at
    most 10 attempts.  When every attempt fails it makes exactly 10 calls,
    each followed by a sleep of 1 second (10 sleeps, the last one after the
    last attempt), logs the failure and returns.  When the first success is
    attempt [k + 1 <= 10] it makes exactly [k + 1] calls with [k] sleeps
    between them, logs the success and returns. *)
Theorem retry_attempts (w : world) :
  ((forall i, (i < 10)%nat -> lbs (ext w) i = Ok false) ->
   let o := sendLbs w in
   (exists v, res o = Ok v) /\
   events o = times 10 [ESendLbs; ESleep 1] ++ [ELog INFO "upload LBS fail"] /\
   count is_ESendLbs (events o) = 10%nat /\
   count is_ESleep (events o) = 10%nat) /\
  (forall k, (k < 10)%nat ->
   (forall i, (i < k)%nat -> lbs (ext w) i = Ok false) ->
   lbs (ext w) k = Ok true ->
   let o := sendLbs w in
   (exists v, res o = Ok v) /\
   events o = times k [ESendLbs; ESleep 1] ++ [ESendLbs; ELog INFO "upload LBS success"] /\
   count is_ESendLbs (events o) = S k /\
   count is_ESleep (events o) = k) /\
  ((forall i, (i < 10)%nat -> gnss (ext w) i = Ok false) ->
   let o := sendGnss w in
   (exists v, res o = Ok v) /\
   events o = times 10 [ESendGnss; ESleep 1] ++ [ELog INFO "upload GNSS fail"] /\
   count is_ESendGnss (events o) = 10%nat /\
   count is_ESleep (events o) = 10%nat) /\
  (forall k, (k < 10)%nat ->
   (forall i, (i < k)%nat -> gnss (ext w) i = Ok false) ->
   gnss (ext w) k = Ok true ->
   let o := sendGnss w in
   (exists v, res o = Ok v) /\
   events o = times k [ESendGnss; ESleep 1] ++ [ESendGnss; ELog INFO "upload GNSS success"] /\
   count is_ESendGnss (events o) = S k /\
   count is_ESleep (events o) = k).
Proof.
  split; [|split; [|split]].
  - intros Hk. cbn zeta. rewrite (sendLbs_all_fail _ Hk). cbn [res events].
    split; [by eexists|]. split; [done|]. split; count_events.
  - intros k Hlt Hk Hok. cbn zeta. rewrite (sendLbs_success _ _ Hlt Hk Hok).
    cbn [res events]. split; [by eexists|]. split; [done|]. split; count_events.
  - intros Hk. cbn zeta. rewrite (sendGnss_all_fail _ Hk). cbn [res events].
    split; [by eexists|]. split; [done|]. split; count_events.
  - intros k Hlt Hk Hok. cbn zeta. rewrite (sendGnss_success _ _ Hlt Hk Hok).
    cbn [res events]. split; [by eexists|]. split; [done|]. split; count_events.
Qed.

(** ** The upload task *)

Lemma events_bind {A B} (m : M A) (f : A -> M B) (w : world) :
  events ((m ≫= f) w) =
  events (m w) ++
  match res (m w) with
  | Ok a => events (f a (after (m w)))
  | Raise _ => []
  end.
Proof.
  unfold mbind, M_bind. destruct (m w) as [[a|e] w1 t1]; cbn.
  - by destruct (f a w1).
  - by rewrite app_nil_r.
Qed.

Lemma res_bind {A B} (m : M A) (f : A -> M B) (w : world) :
  res ((m ≫= f) w) =
  match res (m w) with
  | Ok a => res (f a (after (m w)))
  | Raise e => Raise e
  end.
Proof.
  unfold mbind, M_bind. destruct (m w) as [[a|e] w1 t1]; cbn; [|done].
  by destruct (f a w1).
Qed.

(** A retry loop starts with a call to the client, whatever the client does. *)
Lemma sendLbs_events_head (w : world) : exists t, events (sendLbs w) = ESendLbs :: t.
Proof.
  unfold sendLbs. rewrite events_bind.
  change 10%nat with (S 9). cbn [for_range]. rewrite events_bind.
  rewrite sendLbs_attempt_eq.
  destruct (lbs (ext w) 0%nat) as [[|]|e]; cbn; by eexists.
Qed.


Lemma active_reporting_events_head (n : nat) (w : world) :
  exists t, events (active_reporting n w) = ESendLbs :: t.
Proof.
  unfold active_reporting. rewrite events_bind.
  destruct (sendLbs_events_head w) as [t ->]. by eexists.
Qed.

Lemma wait_ready_success (k : nat) (w : world) :
  (k < 30)%nat ->
  (forall i, (i < k)%nat -> isStatusOk (ext w) i = Ok false) ->
  isStatusOk (ext w) k = Ok true ->
  wait_ready w =
  Out (Ok false) (with_ext (drop_isStatusOk 1) (with_ext (drop_isStatusOk k) w))
      (times k [EIsStatusOk; ESleep 1] ++ [EIsStatusOk]).
Proof.
  intros Hlt Hk Hok. unfold wait_ready.
  replace 30%nat with (k + S (29 - k))%nat by lia.
  rewrite (polls_fail _ _ _ Hk).
  erewrite for_range_Break;
    [|rewrite poll_status_eq; cbn; rewrite Nat.add_0_r, Hok; reflexivity].
  reflexivity.
Qed.

Lemma wait_ready_all_fail (w : world) :
  (forall i, (i < 30)%nat -> isStatusOk (ext w) i = Ok false) ->
  wait_ready w =
  Out (Ok true) (with_ext (drop_isStatusOk 30) w) (times 30 [EIsStatusOk; ESleep 1]).
Proof.
  intros Hk. unfold wait_ready. change 30%nat with (30 + 0)%nat at 1.
  rewrite (polls_fail _ _ _ Hk), for_range_0. unfold prefix. cbn -[times].
  by rewrite app_nil_r.
Qed.

(** C3: the handshake polls the status check at most 30 times, with a sleep
    of 1 second after each failed poll.  When poll [k + 1 <= 30] is the first
    to succeed, the task has made [k + 1] polls and goes on with active
    reporting, which starts with the LBS report.  When all 30 polls fail, the
    task logs the error and returns: it has made 30 polls and no call of
    [sendTsl]. *)
Theorem handshake_outcomes (n : nat) (w : world) :
  (forall k, (k < 30)%nat ->
   (forall i, (i < k)%nat -> isStatusOk (ext w) i = Ok false) ->
   isStatusOk (ext w) k = Ok true ->
   let t := EStart :: times k [EIsStatusOk; ESleep 1] ++ [EIsStatusOk] in
   let w1 := with_ext (drop_isStatusOk 1) (with_ext (drop_isStatusOk k) (set_data None w)) in
   SensorDataUploader_call n w = prefix t (active_reporting n w1) /\
   count is_EIsStatusOk t = S k /\
   exists t', events (SensorDataUploader_call n w) = t ++ ESendLbs :: t') /\
  ((forall i, (i < 30)%nat -> isStatusOk (ext w) i = Ok false) ->
   let o := SensorDataUploader_call n w in
   res o = Ok tt /\
   events o = EStart :: times 30 [EIsStatusOk; ESleep 1] ++
              [ELog ERROR "can not connect to qth server, exist!!!"] /\
   count is_EIsStatusOk (events o) = 30%nat /\
   count is_ESendTsl (events o) = 0%nat).
Proof.
  split.
  - intros k Hlt Hk Hok. cbn zeta.
    assert (SensorDataUploader_call n w =
            prefix (EStart :: times k [EIsStatusOk; ESleep 1] ++ [EIsStatusOk])
              (active_reporting n
                 (with_ext (drop_isStatusOk 1)
                    (with_ext (drop_isStatusOk k) (set_data None w))))) as E.
    { unfold SensorDataUploader_call.
      erewrite bind_Ok by reflexivity. erewrite bind_Ok by reflexivity.
      erewrite bind_Ok by (apply (wait_ready_success k); done).
      by rewrite !prefix_prefix. }
    split; [done|]. split; [cbn; count_events|].
    rewrite E. unfold prefix. cbn [events].
    destruct (active_reporting_events_head n
                (with_ext (drop_isStatusOk 1)
                   (with_ext (drop_isStatusOk k) (set_data None w)))) as [t' ->].
    by exists t'.
  - intros Hk. cbn zeta.
    assert (SensorDataUploader_call n w =
            Out (Ok tt) (with_ext (drop_isStatusOk 30) (set_data None w))
              (EStart :: times 30 [EIsStatusOk; ESleep 1] ++
               [ELog ERROR "can not connect to qth server, exist!!!"])) as ->.
    { unfold SensorDataUploader_call.
      erewrite bind_Ok by reflexivity. erewrite bind_Ok by reflexivity.
      erewrite bind_Ok by (apply wait_ready_all_fail; done).
      unfold logger_error, emit, prefix. cbn -[times]. done. }
    cbn [res events]. split; [done|]. split; [done|]. split; cbn; count_events.
Qed.

(** *** One round of the upload loop *)

Lemma upload_tick_eq (w : world) :
  let o := upload_try w in
  upload_tick w =
  Out (Ok tt) (after o)
      (EAcquire :: events o ++
       match res o with Ok _ => [] | Raise e => [EPrint e] end ++
       [ERelease; ESleep 1]).
Proof.
  cbn zeta. unfold upload_tick, with_data_set, try_except, print, sleep, emit.
  unfold mbind, M_bind.
  destruct (upload_try w) as [[[]|e] w1 t1]; cbn.
  - by rewrite <- app_assoc.
  - by rewrite <- !app_assoc.
Qed.

Lemma upload_tick_res (w : world) : res (upload_tick w) = Ok tt.
Proof. by rewrite upload_tick_eq. Qed.

Lemma upload_try_not_ready (w : world) :
  isStatusOk (ext w) 0%nat = Ok false ->
  upload_try w =
  Out (Ok tt) (with_ext (drop_isStatusOk 1) w)
      [EIsStatusOk; ELog ERROR "qth server connect error"].
Proof.
  intros E. unfold upload_try, qth_isStatusOk. unfold_M. by rewrite E.
Qed.

Lemma upload_try_ready (w : world) :
  isStatusOk (ext w) 0%nat = Ok true ->
  let timestamp := ticks (ext w) 0%nat `div` 1000 in
  upload_try w =
  prefix [EIsStatusOk; ETicksMs]
    ((assemble timestamp ;; dispatch ;; report_location timestamp)
       (with_ext (drop_ticks 1) (with_ext (drop_isStatusOk 1) w))).
Proof.
  intros E. cbn zeta. unfold upload_try.
  erewrite bind_Ok by (unfold qth_isStatusOk, answer; rewrite E; reflexivity).
  cbv beta iota. erewrite (bind_Ok ticks_ms) by reflexivity.
  by rewrite prefix_prefix.
Qed.

(** Payload assembly emits nothing and touches only [data]. *)
Lemma assemble_frame (timestamp : Z) (w : world) :
  let o := assemble timestamp w in
  events o = [] /\ ext (after o) = ext w /\ data_set (after o) = data_set w /\
  collector (after o) = collector w.
Proof.
  cbn zeta. unfold assemble, data_update, load_data, store_data. unfold_M.
  rewrite Z.mod_1_r. cbn.
  destruct (timestamp `mod` 5 =? 0); cbn;
    destruct (temp1 (data_set w)), (humi (data_set w)), (temp2 (data_set w)),
      (press (data_set w)); cbn; try done;
    destruct (data w); cbn; done.
Qed.

(** On a multiple of 5 the payload is built afresh. *)
Lemma assemble_mod5 (timestamp : Z) (w : world) :
  timestamp `mod` 5 = 0 ->
  exists d, assemble timestamp w = Out (Ok tt) (set_data (Some d) w) [].
Proof.
  intros E. unfold assemble, data_update, load_data, store_data. unfold_M.
  rewrite Z.mod_1_r, E. cbn.
  destruct (temp1 (data_set w)), (humi (data_set w)), (temp2 (data_set w)),
    (press (data_set w)); cbn; by eexists.
Qed.

Lemma dispatch_bound (w : world) (d : gmap Z pval) :
  data w = Some d ->
  dispatch w =
  match tsl (ext w) 0%nat with
  | Ok r => Out (Ok tt) (with_ext (drop_tsl 1) w)
              [ESendTsl 1 d; ELog INFO ("SensorDataUploader upload result: " +:+ str (PyBool r))]
  | Raise e => Out (Raise e) (with_ext (drop_tsl 1) w) [ESendTsl 1 d]
  end.
Proof.
  intros E. unfold dispatch, load_data, qth_sendTsl. unfold_M. rewrite E.
  by destruct (tsl (ext w) 0%nat).
Qed.

Lemma dispatch_unbound (w : world) :
  data w = None -> dispatch w = Out (Raise (NameError "data")) w [].
Proof. intros E. unfold dispatch, load_data. unfold_M. by rewrite E. Qed.

(** With [data] unbound and the timestamp off the multiples of 5, assembly or
    dispatch reads [data] before anything is assigned to it. *)
Lemma assemble_dispatch_unbound {A} (timestamp : Z) (w : world) (k : M A) :
  data w = None ->
  timestamp `mod` 5 <> 0 ->
  (assemble timestamp ;; dispatch ;; k) w = Out (Raise (NameError "data")) w [].
Proof.
  intros E Hts. apply Z.eqb_neq in Hts.
  unfold assemble, dispatch, data_update, load_data, store_data. unfold_M.
  rewrite Z.mod_1_r, Hts. cbn.
  destruct (temp1 (data_set w)), (humi (data_set w)), (temp2 (data_set w)),
    (press (data_set w)); cbn; by rewrite E.
Qed.

(** C8: a round whose status check says not ready logs the error and does
    nothing else between taking and releasing the lock: no call of [sendTsl],
    [sendLbs] or [sendGnss], the shared set and the locals are as they were,
    and the round runs the same whatever the shared set holds (no field is
    read).  The next thing is the sleep of 1 second. *)
Theorem not_ready_round_skipped (w : world) :
  isStatusOk (ext w) 0%nat = Ok false ->
  let o := upload_tick w in
  res o = Ok tt /\
  events o = [EAcquire; EIsStatusOk; ELog ERROR "qth server connect error";
              ERelease; ESleep 1] /\
  data_set (after o) = data_set w /\
  data (after o) = data w /\
  (forall d, events (upload_tick (set_data_set d w)) = events o).
Proof.
  intros E. cbn zeta. rewrite !upload_tick_eq. cbn zeta.
  rewrite (upload_try_not_ready _ E). cbn.
  repeat split. intros d. rewrite upload_tick_eq. cbn zeta.
  by rewrite (upload_try_not_ready (set_data_set d w) E).
Qed.

Lemma while_True_S (body : M unit) (n : nat) (w : world) :
  res (body w) = Ok tt ->
  while_True (S n) body w = prefix (events (body w)) (while_True n body (after (body w))).
Proof.
  intros E. cbn [while_True].
  apply (bind_Ok body (fun _ => while_True n body) w (after (body w)) tt (events (body w))).
  destruct (body w) as [r w1 t1]. cbn in *. by subst r.
Qed.

(** C9: a round of the upload loop never raises.  An exception raised by the
    statements under [try] is caught in that round and printed, the lock is
    released, the round ends with its sleep, and the loop goes on with the
    next round from the state the round left; so every number of rounds
    completes without an exception. *)
Theorem round_exceptions_caught (w : world) :
  res (upload_tick w) = Ok tt /\
  (forall e, res (upload_try w) = Raise e ->
     events (upload_tick w) =
     EAcquire :: events (upload_try w) ++ [EPrint e; ERelease; ESleep 1]) /\
  (forall n, while_True (S n) upload_tick w =
             prefix (events (upload_tick w))
               (while_True n upload_tick (after (upload_tick w)))) /\
  (forall n, res (while_True n upload_tick w) = Ok tt).
Proof.
  split; [apply upload_tick_res|]. split; [|split].
  - intros e E. rewrite upload_tick_eq. cbn zeta. by rewrite E.
  - intros n. apply while_True_S, upload_tick_res.
  - intros n. apply while_True_Ok, upload_tick_res.
Qed.

(** C7, as amended: on a round whose status check succeeds, whose truncated
    timestamp is not a multiple of 5 and at which [data] is still unbound (no
    earlier round went through the 5-second branch, the only place that
    assigns it), the read of [data] raises before anything is sent: the round
    prints the unbound-variable error, makes no call of [sendTsl], and leaves
    [data] unbound. *)
Theorem unbound_data_fault (w : world) :
  data w = None ->
  isStatusOk (ext w) 0%nat = Ok true ->
  (ticks (ext w) 0%nat `div` 1000) `mod` 5 <> 0 ->
  let o := upload_tick w in
  res (upload_try w) = Raise (NameError "data") /\
  events o = [EAcquire; EIsStatusOk; ETicksMs; EPrint (NameError "data");
              ERelease; ESleep 1] /\
  count is_ESendTsl (events o) = 0%nat /\
  data (after o) = None.
Proof.
  intros Hdata Hok Hts. cbn zeta. rewrite upload_tick_eq. cbn zeta.
  rewrite (upload_try_ready _ Hok). cbn zeta.
  rewrite assemble_dispatch_unbound by done. cbn. done.
Qed.

(** *** Location reports *)

#[local] Arguments sendLbs : simpl never.
#[local] Arguments sendGnss : simpl never.
#[local] Arguments assemble : simpl never.
#[local] Arguments dispatch : simpl never.
#[local] Arguments report_location : simpl never.

Lemma mod_mul_0 (a b c : Z) : b <> 0 -> c <> 0 -> a `mod` (b * c) = 0 -> a `mod` b = 0.
Proof.
  intros Hb Hc E. apply Z.div_exact in E; [|lia].
  rewrite E, <- Z.mul_assoc, Z.mul_comm. by apply Z.mod_mul.
Qed.

Lemma mod_1800_60 (a : Z) : a `mod` 1800 = 0 -> a `mod` 60 = 0.
Proof. apply (mod_mul_0 a 60 30); lia. Qed.

Lemma mod_60_5 (a : Z) : a `mod` 60 = 0 -> a `mod` 5 = 0.
Proof. apply (mod_mul_0 a 5 12); lia. Qed.

Lemma for_range_lbs_no_gnss (n : nat) (w : world) :
  ~ In ESendGnss (events (for_range n sendLbs_attempt w)).
Proof.
  revert w. induction n as [|n IH]; intros w; [cbn; tauto|].
  cbn [for_range]. rewrite events_bind, sendLbs_attempt_eq.
  destruct (lbs (ext w) 0%nat) as [[|]|e]; cbn; try (intuition discriminate).
  intros [?|[?|?]]; try discriminate. by eapply IH.
Qed.


Lemma sendLbs_no_gnss (w : world) : ~ In ESendGnss (events (sendLbs w)).
Proof.
  unfold sendLbs. rewrite events_bind, in_app_iff.
  intros [?|Hin]; [by eapply for_range_lbs_no_gnss|].
  destruct (for_range 10 sendLbs_attempt w) as [[[|]|e] w1 t1];
    unfold_M_in Hin; cbn in Hin; intuition discriminate.
Qed.











Lemma upload_try_raise (w : world) (e : exn) :
  isStatusOk (ext w) 0%nat = Raise e ->
  upload_try w = Out (Raise e) (with_ext (drop_isStatusOk 1) w) [EIsStatusOk].
Proof.
  intros E. unfold upload_try, qth_isStatusOk. unfold_M. by rewrite E.
Qed.




(** *** The payload of a round on a multiple of 5 *)

(** On a multiple of 5 the payload holds the color channels under key 7 and,
    of the four filtered metrics, exactly those whose field is not [None]. *)
Lemma assemble_mod5_payload (timestamp : Z) (w : world) :
  timestamp `mod` 5 = 0 ->
  let ds := data_set w in
  data (after (assemble timestamp w)) =
  Some (with_metric 6 (press ds) (with_metric 5 (temp2 ds) (with_metric 4 (humi ds)
         (with_metric 3 (temp1 ds) {[ 7 := Channels (channels (rgb888 ds)) ]})))).
Proof.
  intros E. cbn zeta. unfold assemble, data_update, load_data, store_data. unfold_M.
  rewrite Z.mod_1_r, E. cbn.
  destruct (temp1 (data_set w)), (humi (data_set w)), (temp2 (data_set w)),
    (press (data_set w)); reflexivity.
Qed.

(** * Further properties *)

(** ** What a computation keeps *)

Lemma keeps_ret {A} (Q : world -> Prop) (a : A) : keeps Q (mret a).
Proof. by intros w HQ. Qed.

Lemma keeps_bind {A B} (Q : world -> Prop) (m : M A) (f : A -> M B) :
  keeps Q m -> (forall a, keeps Q (f a)) -> keeps Q (m ≫= f).
Proof.
  intros Hm Hf w HQ. unfold mbind, M_bind. specialize (Hm w HQ).
  destruct (m w) as [[a|e] w1 t1]; cbn in *; [|done].
  specialize (Hf a w1 Hm). by destruct (f a w1).
Qed.

Lemma keeps_try_except {A} (Q : world -> Prop) (m : M A) (h : exn -> M A) :
  keeps Q m -> (forall e, keeps Q (h e)) -> keeps Q (try_except m h).
Proof.
  intros Hm Hh w HQ. unfold try_except. specialize (Hm w HQ).
  destruct (m w) as [[a|e] w1 t1]; cbn in *; [done|].
  specialize (Hh e w1 Hm). by destruct (h e w1).
Qed.

Lemma keeps_with_data_set {A} (Q : world -> Prop) (m : M A) :
  keeps Q m -> keeps Q (with_data_set m).
Proof.
  intros Hm w HQ. unfold with_data_set. specialize (Hm w HQ). by destruct (m w).
Qed.

Lemma keeps_for_range (Q : world -> Prop) (body : M control) (n : nat) :
  keeps Q body -> keeps Q (for_range n body).
Proof.
  intros Hb. induction n as [|n IH]; [apply keeps_ret|].
  cbn [for_range]. apply keeps_bind; [done|]. intros [|]; [apply keeps_ret|done].
Qed.

Lemma keeps_while_True (Q : world -> Prop) (body : M unit) (n : nat) :
  keeps Q body -> keeps Q (while_True n body).
Proof.
  intros Hb. induction n as [|n IH]; [apply keeps_ret|].
  cbn [while_True]. by apply keeps_bind.
Qed.

Lemma keeps_emit (Q : world -> Prop) (e : event) : keeps Q (emit e).
Proof. by intros w HQ. Qed.

Lemma keeps_if {A} (Q : world -> Prop) (b : bool) (m1 m2 : M A) :
  keeps Q m1 -> keeps Q m2 -> keeps Q (if b then m1 else m2).
Proof. by destruct b. Qed.

Section UploadKeeps.

(** A property of the world that does not look at the collaborators and
    survives an assignment of a dict to [data]. *)
Variable Q : world -> Prop.
Hypothesis Q_ext : forall x w, Q w -> Q (set_ext x w).
Hypothesis Q_store : forall d w, Q w -> Q (set_data (Some d) w).

Lemma keeps_qth_isStatusOk : keeps Q qth_isStatusOk.
Proof. intros w HQ. by apply Q_ext. Qed.
Lemma keeps_qth_sendLbs : keeps Q qth_sendLbs.
Proof. intros w HQ. by apply Q_ext. Qed.
Lemma keeps_qth_sendGnss : keeps Q qth_sendGnss.
Proof. intros w HQ. by apply Q_ext. Qed.
Lemma keeps_qth_sendTsl (p : Z) (d : gmap Z pval) : keeps Q (qth_sendTsl p d).
Proof. intros w HQ. by apply Q_ext. Qed.
Lemma keeps_ticks_ms : keeps Q ticks_ms.
Proof. intros w HQ. by apply Q_ext. Qed.

Lemma keeps_load_data : keeps Q load_data.
Proof.
  intros w HQ. unfold load_data, gets, raise, mbind, M_bind, mret, M_ret.
  by destruct (data w).
Qed.

Lemma keeps_store_data (d : gmap Z pval) : keeps Q (store_data d).
Proof. intros w HQ. by apply Q_store. Qed.

Lemma keeps_data_update (k : Z) (v : pval) : keeps Q (data_update k v).
Proof.
  apply keeps_bind; [apply keeps_load_data|]. intros d. apply keeps_store_data.
Qed.

Lemma keeps_gets {A} (f : world -> A) : keeps Q (gets f).
Proof. by intros w HQ. Qed.

Lemma keeps_sendLbs : keeps Q sendLbs.
Proof.
  unfold sendLbs. apply keeps_bind.
  - apply keeps_for_range. unfold sendLbs_attempt.
    apply keeps_bind; [apply keeps_qth_sendLbs|].
    intros [|]; (apply keeps_bind; [apply keeps_emit|intros; apply keeps_ret]).
  - intros b. apply keeps_bind; [|intros; apply keeps_ret].
    apply keeps_if; [apply keeps_emit|apply keeps_ret].
Qed.

Lemma keeps_sendGnss : keeps Q sendGnss.
Proof.
  unfold sendGnss. apply keeps_bind.
  - apply keeps_for_range. unfold sendGnss_attempt.
    apply keeps_bind; [apply keeps_qth_sendGnss|].
    intros [|]; (apply keeps_bind; [apply keeps_emit|intros; apply keeps_ret]).
  - intros b. apply keeps_bind; [|intros; apply keeps_ret].
    apply keeps_if; [apply keeps_emit|apply keeps_ret].
Qed.

Lemma keeps_assemble (timestamp : Z) : keeps Q (assemble timestamp).
Proof.
  unfold assemble. apply keeps_bind.
  - apply keeps_if; [|apply keeps_ret].
    apply keeps_bind; [apply keeps_gets|]. intros ds. apply keeps_store_data.
  - intros _. apply keeps_if; [|apply keeps_ret].
    apply keeps_bind; [apply keeps_gets|]. intros ds.
    repeat (apply keeps_bind; [|intros _]);
      (destruct ds as [[?|] [?|] [?|] [?|] ?]; cbn;
       first [apply keeps_data_update|apply keeps_ret]).
Qed.

Lemma keeps_dispatch : keeps Q dispatch.
Proof.
  unfold dispatch. apply keeps_bind; [apply keeps_load_data|]. intros d.
  apply keeps_bind; [apply keeps_qth_sendTsl|]. intros r. apply keeps_emit.
Qed.

Lemma keeps_report_location (timestamp : Z) : keeps Q (report_location timestamp).
Proof.
  unfold report_location. apply keeps_bind; [|intros _]; (apply keeps_if; [|apply keeps_ret]).
  - apply keeps_bind; [apply keeps_sendLbs|]. intros r. apply keeps_emit.
  - apply keeps_bind; [apply keeps_sendGnss|]. intros r. apply keeps_emit.
Qed.

Lemma keeps_upload_try : keeps Q upload_try.
Proof.
  unfold upload_try. apply keeps_bind; [apply keeps_qth_isStatusOk|].
  intros [|]; [|apply keeps_emit].
  apply keeps_bind; [apply keeps_ticks_ms|]. intros t. cbn zeta.
  apply keeps_bind; [apply keeps_assemble|]. intros _.
  apply keeps_bind; [apply keeps_dispatch|]. intros _. apply keeps_report_location.
Qed.

Lemma keeps_upload_tick : keeps Q upload_tick.
Proof.
  unfold upload_tick. apply keeps_bind; [|intros _; apply keeps_emit].
  apply keeps_with_data_set, keeps_try_except; [apply keeps_upload_try|].
  intros e. apply keeps_emit.
Qed.

Lemma keeps_active_reporting (n : nat) : keeps Q (active_reporting n).
Proof.
  unfold active_reporting. apply keeps_bind; [apply keeps_sendLbs|]. intros _.
  apply keeps_bind; [apply keeps_sendGnss|]. intros _.
  apply keeps_while_True, keeps_upload_tick.
Qed.

Lemma keeps_SensorDataUploader_call (n : nat) :
  (forall w, Q w -> Q (set_data None w)) -> keeps Q (SensorDataUploader_call n).
Proof.
  intros Q_none. unfold SensorDataUploader_call.
  apply keeps_bind; [intros w HQ; by apply Q_none|]. intros _.
  apply keeps_bind; [apply keeps_emit|]. intros _.
  apply keeps_bind.
  - apply keeps_for_range. unfold poll_status.
    apply keeps_bind; [apply keeps_qth_isStatusOk|].
    intros [|]; [apply keeps_ret|].
    apply keeps_bind; [apply keeps_emit|intros; apply keeps_ret].
  - intros [|]; [apply keeps_emit|apply keeps_active_reporting].
Qed.

End UploadKeeps.

(** X1: the upload task never writes the shared set or the memos of the
    sampling task: whatever the client answers or raises, and for every
    number of rounds, the shared set and the memos after the task are those
    before it.  The same holds for a single round. *)
Theorem uploader_reads_only (n : nat) (w : world) :
  data_set (after (SensorDataUploader_call n w)) = data_set w /\
  collector (after (SensorDataUploader_call n w)) = collector w /\
  data_set (after (upload_tick w)) = data_set w /\
  collector (after (upload_tick w)) = collector w.
Proof.
  set (Q := fun w' : world => data_set w' = data_set w /\ collector w' = collector w).
  assert (Q w) as HQ by done.
  destruct (keeps_SensorDataUploader_call Q ltac:(done) ltac:(done) n ltac:(done) w HQ)
    as [E1 E2].
  destruct (keeps_upload_tick Q ltac:(done) ltac:(done) w HQ) as [E3 E4].
  done.
Qed.

(** X2: once a round of the upload loop has bound [data], it stays bound:
    no later round, whatever happens in it, unbinds it. *)
Theorem data_stays_bound (n : nat) (w : world) :
  data w <> None ->
  data (after (upload_tick w)) <> None /\
  data (after (while_True n upload_tick w)) <> None.
Proof.
  intros Hw. set (Q := fun w' : world => data w' <> None).
  split.
  - by apply (keeps_upload_tick Q ltac:(done) ltac:(done) w).
  - by apply (keeps_while_True Q upload_tick n
                (keeps_upload_tick Q ltac:(done) ltac:(done)) w).
Qed.

(** ** What a computation emits *)

Lemma emits_ret {A} (P : event -> Prop) (a : A) : emits P (mret a).
Proof. intros w. constructor. Qed.

Lemma emits_bind {A B} (P : event -> Prop) (m : M A) (f : A -> M B) :
  emits P m -> (forall a, emits P (f a)) -> emits P (m ≫= f).
Proof.
  intros Hm Hf w. rewrite events_bind. apply Forall_app. split; [apply Hm|].
  destruct (res (m w)); [apply Hf|constructor].
Qed.

Lemma emits_try_except {A} (P : event -> Prop) (m : M A) (h : exn -> M A) :
  emits P m -> (forall e, emits P (h e)) -> emits P (try_except m h).
Proof.
  intros Hm Hh w. unfold try_except. specialize (Hm w).
  destruct (m w) as [[a|e] w1 t1]; cbn in *; [done|].
  specialize (Hh e w1). destruct (h e w1). cbn in *. apply Forall_app. by split.
Qed.

Lemma emits_for_range (P : event -> Prop) (body : M control) (n : nat) :
  emits P body -> emits P (for_range n body).
Proof.
  intros Hb. induction n as [|n IH]; [apply emits_ret|].
  cbn [for_range]. apply emits_bind; [done|]. intros [|]; [apply emits_ret|done].
Qed.

Lemma emits_emit (P : event -> Prop) (e : event) : P e -> emits P (emit e).
Proof. intros He w. by repeat constructor. Qed.

Lemma emits_if {A} (P : event -> Prop) (b : bool) (m1 m2 : M A) :
  emits P m1 -> emits P m2 -> emits P (if b then m1 else m2).
Proof. by destruct b. Qed.

Lemma emits_silent {A} (P : event -> Prop) (m : M A) :
  (forall w, events (m w) = []) -> emits P m.
Proof. intros Hm w. rewrite Hm. constructor. Qed.

Lemma count_none (p : event -> bool) (t : list event) :
  Forall (fun e => p e = false) t -> count p t = 0%nat.
Proof. induction 1 as [|e t He _ IH]; cbn; [done|]. by rewrite He, IH. Qed.

Section UploadEmits.

Variable P : event -> Prop.
Hypothesis P_status : P EIsStatusOk.
Hypothesis P_ticks : P ETicksMs.
Hypothesis P_tsl : forall p d, P (ESendTsl p d).
Hypothesis P_lbs : P ESendLbs.
Hypothesis P_gnss : P ESendGnss.
Hypothesis P_sleep : P (ESleep 1).
Hypothesis P_log : forall l s, P (ELog l s).

Lemma emits_sendLbs : emits P sendLbs.
Proof.
  unfold sendLbs. apply emits_bind.
  - apply emits_for_range. unfold sendLbs_attempt.
    apply emits_bind; [intros w; by repeat constructor|].
    intros [|]; (apply emits_bind; [by apply emits_emit|intros; apply emits_ret]).
  - intros b. apply emits_bind; [|intros; apply emits_ret].
    apply emits_if; [by apply emits_emit|apply emits_ret].
Qed.

Lemma emits_sendGnss : emits P sendGnss.
Proof.
  unfold sendGnss. apply emits_bind.
  - apply emits_for_range. unfold sendGnss_attempt.
    apply emits_bind; [intros w; by repeat constructor|].
    intros [|]; (apply emits_bind; [by apply emits_emit|intros; apply emits_ret]).
  - intros b. apply emits_bind; [|intros; apply emits_ret].
    apply emits_if; [by apply emits_emit|apply emits_ret].
Qed.

Lemma emits_report_location (timestamp : Z) : emits P (report_location timestamp).
Proof.
  unfold report_location. apply emits_bind; [|intros _]; (apply emits_if; [|apply emits_ret]).
  - apply emits_bind; [apply emits_sendLbs|]. intros r. by apply emits_emit.
  - apply emits_bind; [apply emits_sendGnss|]. intros r. by apply emits_emit.
Qed.

Lemma emits_dispatch : emits P dispatch.
Proof.
  intros w. destruct (data w) as [d|] eqn:E.
  - rewrite (dispatch_bound _ _ E). destruct (tsl (ext w) 0%nat); by repeat constructor.
  - rewrite (dispatch_unbound _ E). constructor.
Qed.

Lemma emits_upload_try : emits P upload_try.
Proof.
  unfold upload_try. apply emits_bind; [intros w; by repeat constructor|].
  intros [|]; [|by apply emits_emit].
  apply emits_bind; [intros w; by repeat constructor|]. intros t. cbn zeta.
  apply emits_bind; [apply emits_silent; intros w; apply assemble_frame|]. intros _.
  apply emits_bind; [apply emits_dispatch|]. intros _. apply emits_report_location.
Qed.

End UploadEmits.

Lemma failure_log_no_lock {A} (r : result A) (s : string) :
  count is_lock (failure_log (num:=num) r s) = 0%nat.
Proof. by destruct r. Qed.

(** X3: both tasks take the lock of the shared set once at the start of a
    round and release it once at its end, whatever a sensor or the client
    does in between: a round of the sampling task is acquire, the reads,
    release; a round of the upload task is acquire, its calls, release and
    then the sleep, also when its body raised. *)
Theorem lock_balanced (w : world) :
  (exists t, events (getSensorData w) = EAcquire :: t ++ [ERelease] /\
             count is_lock t = 0%nat) /\
  (exists t, events (upload_tick w) = EAcquire :: t ++ [ERelease; ESleep 1] /\
             count is_lock t = 0%nat).
Proof.
  split.
  - rewrite getSensorData_eq. cbn zeta. cbn [events].
    set (w1 := after_shtc3 w). set (w2 := after_lps22hb w1).
    set (w3 := after_tcs34725 w2).
    exists ((EGetTempAndHumi :: failure_log (shtc3 (ext w) 0%nat) "shtc3") ++
            (EGetTempAndPressure :: failure_log (lps22hb (ext w1) 0%nat) "lps22hb") ++
            (EGetRGBValue :: failure_log (tcs34725 (ext w2) 0%nat) "tcs34725") ++
            [EDataShow (data_set w3)]).
    split.
    + f_equal. rewrite <- !app_assoc. reflexivity.
    + rewrite !count_app. cbn. by rewrite !failure_log_no_lock.
  - rewrite upload_tick_eq. cbn zeta. cbn [events].
    exists (events (upload_try w) ++
            match res (upload_try w) with Ok _ => [] | Raise e => [EPrint e] end).
    split.
    + f_equal. rewrite <- app_assoc. reflexivity.
    + rewrite count_app, (count_none is_lock (events (upload_try w)))
        by (by apply emits_upload_try).
      by destruct (res (upload_try w)).
Qed.

(** ** The payload of a round *)

Lemma assemble_fresh (timestamp : Z) (w : world) :
  timestamp `mod` 5 = 0 ->
  res (assemble timestamp w) = Ok tt /\
  data (after (assemble timestamp w)) = Some (fresh_payload (data_set w)).
Proof.
  intros E. split; [|by apply assemble_mod5_payload].
  by destruct (assemble_mod5 timestamp w E) as [d ->].
Qed.

Lemma assemble_bound (timestamp : Z) (w : world) (d : gmap Z pval) :
  timestamp `mod` 5 <> 0 ->
  data w = Some d ->
  res (assemble timestamp w) = Ok tt /\
  data (after (assemble timestamp w)) = Some (with_metrics (data_set w) d).
Proof.
  intros Hts E. apply Z.eqb_neq in Hts.
  unfold assemble, data_update, load_data, store_data. unfold_M.
  rewrite Z.mod_1_r, Hts. cbn. unfold with_metrics, with_metric.
  destruct (temp1 (data_set w)), (humi (data_set w)), (temp2 (data_set w)),
    (press (data_set w)); cbn; rewrite ?E; cbn; done.
Qed.

(** A round whose status check succeeded and whose assembly left the dict
    [d] in [data] calls [sendTsl] once, with profile 1 and [d]. *)
Lemma round_sends (w : world) (d : gmap Z pval) :
  isStatusOk (ext w) 0%nat = Ok true ->
  let timestamp := ticks (ext w) 0%nat `div` 1000 in
  let w1 := with_ext (drop_ticks 1) (with_ext (drop_isStatusOk 1) w) in
  res (assemble timestamp w1) = Ok tt ->
  data (after (assemble timestamp w1)) = Some d ->
  exists t,
    events (upload_tick w) = EAcquire :: EIsStatusOk :: ETicksMs :: ESendTsl 1 d :: t /\
    count is_ESendTsl t = 0%nat.
Proof.
  intros Hok timestamp w1 Hres Hdata.
  rewrite upload_tick_eq. cbn zeta. rewrite (upload_try_ready _ Hok). cbn zeta.
  fold timestamp w1. unfold prefix. cbn [events res].
  rewrite events_bind, res_bind, Hres.
  destruct (assemble_frame timestamp w1) as (-> & _).
  set (w2 := after (assemble timestamp w1)) in *.
  rewrite events_bind, res_bind, (dispatch_bound w2 d Hdata).
  destruct (tsl (ext w2) 0%nat) as [r|e]; cbn [events res after app].
  - eexists. split; [reflexivity|].
    cbn [count is_ESendTsl]. rewrite !count_app.
    rewrite (count_none is_ESendTsl (events (report_location timestamp _)))
      by (by apply emits_report_location).
    by destruct (res (report_location timestamp _)).
  - eexists. split; [reflexivity|]. done.
Qed.

Lemma fresh_payload_sent_aux (w : world) :
  isStatusOk (ext w) 0%nat = Ok true ->
  (ticks (ext w) 0%nat `div` 1000) `mod` 5 = 0 ->
  exists t,
    events (upload_tick w) =
    EAcquire :: EIsStatusOk :: ETicksMs :: ESendTsl 1 (fresh_payload (data_set w)) :: t.
Proof.
  intros Hok Hts.
  set (w1 := with_ext (drop_ticks 1) (with_ext (drop_isStatusOk 1) w)).
  destruct (assemble_fresh _ w1 Hts) as [Hres Hdata].
  destruct (round_sends w _ Hok Hres Hdata) as (t & Ht & _). by exists t.
Qed.

Lemma with_metrics_lookup (ds : DataSet) (d : gmap Z pval) :
  let p := with_metrics ds d in
  p !! 3 = match temp1 ds with Some v => Some (Scalar v) | None => d !! 3 end /\
  p !! 4 = match humi ds with Some v => Some (Scalar v) | None => d !! 4 end /\
  p !! 5 = match temp2 ds with Some v => Some (Scalar v) | None => d !! 5 end /\
  p !! 6 = match press ds with Some v => Some (Scalar v) | None => d !! 6 end /\
  (forall k, k <> 3 -> k <> 4 -> k <> 5 -> k <> 6 -> p !! k = d !! k).
Proof.
  cbn zeta. unfold with_metrics, with_metric.
  destruct (temp1 ds), (humi ds), (temp2 ds), (press ds);
    repeat split; intros; by simplify_map_eq.
Qed.

(** X4: on a round whose status check succeeded and whose truncated
    timestamp is a multiple of 5, the task calls [sendTsl] once, with profile
    1 and a dict built afresh from the shared set: the three color channels
    under key 7, each of temp1, humidity, temp2 and pressure under its key 3,
    4, 5, 6 exactly when its field is not [None], and no other key. *)
Theorem fresh_payload_sent (w : world) :
  isStatusOk (ext w) 0%nat = Ok true ->
  (ticks (ext w) 0%nat `div` 1000) `mod` 5 = 0 ->
  let ds := data_set w in
  let p := fresh_payload ds in
  (exists t,
     events (upload_tick w) = EAcquire :: EIsStatusOk :: ETicksMs :: ESendTsl 1 p :: t /\
     count is_ESendTsl t = 0%nat) /\
  p !! 7 = Some (Channels (channels (rgb888 ds))) /\
  p !! 3 = Scalar <$> temp1 ds /\
  p !! 4 = Scalar <$> humi ds /\
  p !! 5 = Scalar <$> temp2 ds /\
  p !! 6 = Scalar <$> press ds /\
  (forall k, k <> 3 -> k <> 4 -> k <> 5 -> k <> 6 -> k <> 7 -> p !! k = None).
Proof.
  intros Hok Hts ds p. split.
  - set (w1 := with_ext (drop_ticks 1) (with_ext (drop_isStatusOk 1) w)).
    destruct (assemble_fresh _ w1 Hts) as [Hres Hdata].
    by apply round_sends.
  - subst p. unfold fresh_payload.
    destruct (with_metrics_lookup ds {[7 := Channels (channels (rgb888 ds))]})
      as (E3 & E4 & E5 & E6 & Ek).
    cbn zeta in *. rewrite E3, E4, E5, E6.
    split; [rewrite Ek by done; by simplify_map_eq|].
    split; [by destruct (temp1 ds)|]. split; [by destruct (humi ds)|].
    split; [by destruct (temp2 ds)|]. split; [by destruct (press ds)|].
    intros k ? ? ? ? ?. rewrite Ek by done. by simplify_map_eq.
Qed.

(** X5: on a round whose status check succeeded, whose truncated timestamp is
    not a multiple of 5 and at which [data] is bound to a dict [d] (that of
    an earlier round), the task sends [d] with the metrics whose field is not
    [None] written over: an entry of [d] is never removed.  The color
    channels under key 7 are those of [d], and a metric whose field is [None]
    this round is sent with the value [d] had for it. *)
Theorem stale_entries_sent (w : world) (d : gmap Z pval) :
  isStatusOk (ext w) 0%nat = Ok true ->
  (ticks (ext w) 0%nat `div` 1000) `mod` 5 <> 0 ->
  data w = Some d ->
  let ds := data_set w in
  let p := with_metrics ds d in
  (exists t,
     events (upload_tick w) = EAcquire :: EIsStatusOk :: ETicksMs :: ESendTsl 1 p :: t /\
     count is_ESendTsl t = 0%nat) /\
  p !! 7 = d !! 7 /\
  (temp1 ds = None -> p !! 3 = d !! 3) /\
  (humi ds = None -> p !! 4 = d !! 4) /\
  (temp2 ds = None -> p !! 5 = d !! 5) /\
  (press ds = None -> p !! 6 = d !! 6) /\
  (forall k, d !! k <> None -> p !! k <> None).
Proof.
  intros Hok Hts Hd ds p. split.
  - set (w1 := with_ext (drop_ticks 1) (with_ext (drop_isStatusOk 1) w)).
    destruct (assemble_bound _ w1 d Hts Hd) as [Hres Hdata].
    by apply round_sends.
  - destruct (with_metrics_lookup ds d) as (E3 & E4 & E5 & E6 & Ek).
    cbn zeta in *. fold p in E3, E4, E5, E6, Ek.
    split; [by apply Ek|].
    split; [intros E; by rewrite E3, E|]. split; [intros E; by rewrite E4, E|].
    split; [intros E; by rewrite E5, E|]. split; [intros E; by rewrite E6, E|].
    intros k Hk.
    destruct (decide (k = 3)) as [->|?]; [rewrite E3; by destruct (temp1 ds)|].
    destruct (decide (k = 4)) as [->|?]; [rewrite E4; by destruct (humi ds)|].
    destruct (decide (k = 5)) as [->|?]; [rewrite E5; by destruct (temp2 ds)|].
    destruct (decide (k = 6)) as [->|?]; [rewrite E6; by destruct (press ds)|].
    by rewrite Ek.
Qed.

(** X6: the three color channels sent under key 7 are bytes, whatever int the
    color sensor returned, and for a 24-bit value they are its red, green and
    blue bytes: the value is [65536 * r + 256 * g + b]. *)
Theorem channels_are_bytes (rgb : Z) :
  exists r g b,
    channels rgb !! 1 = Some r /\ channels rgb !! 2 = Some g /\
    channels rgb !! 3 = Some b /\
    0 <= r < 256 /\ 0 <= g < 256 /\ 0 <= b < 256 /\
    (0 <= rgb < 2 ^ 24 -> rgb = 65536 * r + 256 * g + b).
Proof.
  exists (Z.land (Z.shiftr rgb 16) 255), (Z.land (Z.shiftr rgb 8) 255), (Z.land rgb 255).
  unfold channels. repeat (split; [by simplify_map_eq|]).
  change 255 with (Z.ones 8). rewrite !Z.land_ones, !Z.shiftr_div_pow2 by lia.
  change (2 ^ 8) with 256. change (2 ^ 16) with 65536. change (2 ^ 24) with 16777216.
  pose proof (Z.mod_pos_bound (rgb `div` 65536) 256 ltac:(lia)).
  pose proof (Z.mod_pos_bound (rgb `div` 256) 256 ltac:(lia)).
  pose proof (Z.mod_pos_bound rgb 256 ltac:(lia)).
  repeat (split; [lia|]).
  intros Hrgb.
  rewrite (Z.mod_small (rgb `div` 65536) 256)
    by (split; [apply Z.div_pos; lia|apply Z.div_lt_upper_bound; lia]).
  pose proof (Z.div_mod rgb 256 ltac:(lia)) as D1.
  pose proof (Z.div_mod (rgb `div` 256) 256 ltac:(lia)) as D2.
  rewrite Z.div_div in D2 by lia. change (256 * 256) with 65536 in D2.
  lia.
Qed.

(** ** The retry loops under any client *)

Lemma for_range_lbs_bounds (n : nat) (w : world) :
  let t := events (for_range n sendLbs_attempt w) in
  (count is_ESendLbs t <= n)%nat /\
  (count is_ESleep t <= count is_ESendLbs t)%nat /\
  (count is_ESendLbs t <= S (count is_ESleep t))%nat /\
  (0 < n -> 0 < count is_ESendLbs t)%nat.
Proof.
  revert w. induction n as [|n IH]; intros w; cbn zeta; [cbn; lia|].
  cbn [for_range]. rewrite events_bind, sendLbs_attempt_eq.
  destruct (lbs (ext w) 0%nat) as [[|]|e]; cbn [events res after];
    rewrite ?count_app; cbn [count is_ESendLbs is_ESleep app]; try (cbn; lia).
  specialize (IH (with_ext (drop_lbs 1) w)). cbn zeta in IH. lia.
Qed.

Lemma for_range_gnss_bounds (n : nat) (w : world) :
  let t := events (for_range n sendGnss_attempt w) in
  (count is_ESendGnss t <= n)%nat /\
  (count is_ESleep t <= count is_ESendGnss t)%nat /\
  (count is_ESendGnss t <= S (count is_ESleep t))%nat /\
  (0 < n -> 0 < count is_ESendGnss t)%nat.
Proof.
  revert w. induction n as [|n IH]; intros w; cbn zeta; [cbn; lia|].
  cbn [for_range]. rewrite events_bind, sendGnss_attempt_eq.
  destruct (gnss (ext w) 0%nat) as [[|]|e]; cbn [events res after];
    rewrite ?count_app; cbn [count is_ESendGnss is_ESleep app]; try (cbn; lia).
  specialize (IH (with_ext (drop_gnss 1) w)). cbn zeta in IH. lia.
Qed.

(** X7: whatever the client answers or raises, a location report makes at
    least 1 and at most 10 calls of the client, sleeps after a call or not at
    all (so the sleeps are as many as the calls or one fewer), and calls
    nothing else of the client: [sendLbs] makes no GNSS or telemetry call,
    [sendGnss] no LBS or telemetry call. *)
Theorem retry_bounded (w : world) :
  (let t := events (sendLbs w) in
   (1 <= count is_ESendLbs t <= 10)%nat /\
   (count is_ESleep t <= count is_ESendLbs t <= S (count is_ESleep t))%nat /\
   count is_ESendGnss t = 0%nat /\ count is_ESendTsl t = 0%nat) /\
  (let t := events (sendGnss w) in
   (1 <= count is_ESendGnss t <= 10)%nat /\
   (count is_ESleep t <= count is_ESendGnss t <= S (count is_ESleep t))%nat /\
   count is_ESendLbs t = 0%nat /\ count is_ESendTsl t = 0%nat).
Proof.
  split; cbn zeta.
  - pose proof (for_range_lbs_bounds 10 w) as B. cbn zeta in B.
    assert (count is_ESendLbs (events (sendLbs w)) =
              count is_ESendLbs (events (for_range 10 sendLbs_attempt w)) /\
            count is_ESleep (events (sendLbs w)) =
              count is_ESleep (events (for_range 10 sendLbs_attempt w))) as [-> ->].
    { unfold sendLbs. rewrite events_bind, !count_app.
      destruct (res (for_range 10 sendLbs_attempt w)) as [[|]|e]; unfold_M; cbn; lia. }
    split; [lia|]. split; [lia|].
    split; apply count_none; by apply emits_sendLbs.
  - pose proof (for_range_gnss_bounds 10 w) as B. cbn zeta in B.
    assert (count is_ESendGnss (events (sendGnss w)) =
              count is_ESendGnss (events (for_range 10 sendGnss_attempt w)) /\
            count is_ESleep (events (sendGnss w)) =
              count is_ESleep (events (for_range 10 sendGnss_attempt w))) as [-> ->].
    { unfold sendGnss. rewrite events_bind, !count_app.
      destruct (res (for_range 10 sendGnss_attempt w)) as [[|]|e]; unfold_M; cbn; lia. }
    split; [lia|]. split; [lia|].
    split; apply count_none; by apply emits_sendGnss.
Qed.

(** ** Exceptions outside the rounds *)

Lemma wait_ready_raise (k : nat) (w : world) (e : exn) :
  (k < 30)%nat ->
  (forall i, (i < k)%nat -> isStatusOk (ext w) i = Ok false) ->
  isStatusOk (ext w) k = Raise e ->
  wait_ready w =
  Out (Raise e) (with_ext (drop_isStatusOk 1) (with_ext (drop_isStatusOk k) w))
      (times k [EIsStatusOk; ESleep 1] ++ [EIsStatusOk]).
Proof.
  intros Hlt Hk He. unfold wait_ready.
  replace 30%nat with (k + S (29 - k))%nat by lia.
  rewrite (polls_fail _ _ _ Hk).
  erewrite for_range_Raise;
    [|rewrite poll_status_eq; cbn; rewrite Nat.add_0_r, He; reflexivity].
  reflexivity.
Qed.

Lemma sendLbs_raise (k : nat) (w : world) (e : exn) :
  (k < 10)%nat ->
  (forall i, (i < k)%nat -> lbs (ext w) i = Ok false) ->
  lbs (ext w) k = Raise e ->
  sendLbs w =
  Out (Raise e) (with_ext (drop_lbs 1) (with_ext (drop_lbs k) w))
      (times k [ESendLbs; ESleep 1] ++ [ESendLbs]).
Proof.
  intros Hlt Hk He. unfold sendLbs.
  erewrite bind_Raise; [reflexivity|].
  replace 10%nat with (k + S (9 - k))%nat by lia.
  rewrite (sendLbs_attempts_fail _ _ _ Hk).
  erewrite for_range_Raise;
    [|rewrite sendLbs_attempt_eq; cbn; rewrite Nat.add_0_r, He; reflexivity].
  reflexivity.
Qed.

Lemma SensorDataUploader_call_ready (n k : nat) (w : world) :
  (k < 30)%nat ->
  (forall i, (i < k)%nat -> isStatusOk (ext w) i = Ok false) ->
  isStatusOk (ext w) k = Ok true ->
  SensorDataUploader_call n w =
  prefix (EStart :: times k [EIsStatusOk; ESleep 1] ++ [EIsStatusOk])
    (active_reporting n
       (with_ext (drop_isStatusOk 1) (with_ext (drop_isStatusOk k) (set_data None w)))).
Proof.
  intros Hlt Hk Hok. unfold SensorDataUploader_call.
  erewrite bind_Ok by reflexivity. erewrite bind_Ok by reflexivity.
  erewrite bind_Ok by (apply (wait_ready_success k); done).
  by rewrite !prefix_prefix.
Qed.

(** X8: before the upload loop nothing catches an exception.  When the status
    check raises during the handshake, or the client raises during the first
    LBS report, [__call__] ends with that exception after the calls made so
    far: no round of the loop runs, the lock is never taken and [sendTsl] is
    never called. *)
Theorem startup_exception_ends_task (n : nat) (w : world) (e : exn) :
  (forall k, (k < 30)%nat ->
   (forall i, (i < k)%nat -> isStatusOk (ext w) i = Ok false) ->
   isStatusOk (ext w) k = Raise e ->
   let o := SensorDataUploader_call n w in
   res o = Raise e /\
   events o = EStart :: times k [EIsStatusOk; ESleep 1] ++ [EIsStatusOk] /\
   count is_lock (events o) = 0%nat /\ count is_ESendTsl (events o) = 0%nat) /\
  (forall k j, (k < 30)%nat -> (j < 10)%nat ->
   (forall i, (i < k)%nat -> isStatusOk (ext w) i = Ok false) ->
   isStatusOk (ext w) k = Ok true ->
   (forall i, (i < j)%nat -> lbs (ext w) i = Ok false) ->
   lbs (ext w) j = Raise e ->
   let o := SensorDataUploader_call n w in
   res o = Raise e /\
   events o = (EStart :: times k [EIsStatusOk; ESleep 1] ++ [EIsStatusOk]) ++
              times j [ESendLbs; ESleep 1] ++ [ESendLbs] /\
   count is_lock (events o) = 0%nat /\ count is_ESendTsl (events o) = 0%nat).
Proof.
  split.
  - intros k Hlt Hk He. cbn zeta.
    assert (SensorDataUploader_call n w =
            Out (Raise e)
              (with_ext (drop_isStatusOk 1) (with_ext (drop_isStatusOk k) (set_data None w)))
              (EStart :: times k [EIsStatusOk; ESleep 1] ++ [EIsStatusOk])) as ->.
    { unfold SensorDataUploader_call.
      erewrite bind_Ok by reflexivity. erewrite bind_Ok by reflexivity.
      erewrite bind_Raise by (apply (wait_ready_raise k); done).
      unfold prefix. by cbn -[times]. }
    cbn [res events]. split; [done|]. split; [done|]. split; cbn; count_events.
  - intros k j Hk Hj Hpolls Hok Hlbs He. cbn zeta.
    rewrite (SensorDataUploader_call_ready n k w Hk Hpolls Hok).
    unfold active_reporting. erewrite bind_Raise by (apply (sendLbs_raise j); done).
    unfold prefix. cbn [res events]. split; [done|]. split; [done|].
    split; cbn; count_events.
Qed.

(** ** Exceptions and retries inside a round *)

Lemma assemble_fresh_eq (timestamp : Z) (w : world) :
  timestamp `mod` 5 = 0 ->
  assemble timestamp w = Out (Ok tt) (set_data (Some (fresh_payload (data_set w))) w) [].
Proof.
  intros E. destruct (assemble_mod5 timestamp w E) as [d Ed].
  destruct (assemble_fresh timestamp w E) as [_ Hd]. rewrite Ed in Hd. cbn in Hd.
  by injection Hd as <-.
Qed.

(** The statements under [try] up to the location reports, on a multiple of
    5 with [sendTsl] returning. *)
Lemma upload_try_fresh (w : world) (r : bool) :
  isStatusOk (ext w) 0%nat = Ok true ->
  tsl (ext w) 0%nat = Ok r ->
  let timestamp := ticks (ext w) 0%nat `div` 1000 in
  timestamp `mod` 5 = 0 ->
  upload_try w =
  prefix [EIsStatusOk; ETicksMs; ESendTsl 1 (fresh_payload (data_set w));
          ELog INFO ("SensorDataUploader upload result: " +:+ str (PyBool r))]
    (report_location timestamp
       (with_ext (drop_tsl 1)
          (set_data (Some (fresh_payload (data_set w)))
             (with_ext (drop_ticks 1) (with_ext (drop_isStatusOk 1) w))))).
Proof.
  intros Hok Htsl timestamp H5. rewrite (upload_try_ready _ Hok). cbn zeta.
  fold timestamp.
  erewrite bind_Ok by (by apply assemble_fresh_eq).
  erewrite bind_Ok
    by (erewrite dispatch_bound by reflexivity; cbn; rewrite Htsl; reflexivity).
  by rewrite !prefix_prefix.
Qed.

(** X9: an exception in a round skips the rest of the round.  When [sendTsl]
    raises, the round makes no location report, also on a multiple of 1800;
    when the first call of the LBS report raises, the GNSS report of the
    round is not made.  Either way the exception is printed and the round
    ends as usual. *)
Theorem exception_skips_rest_of_round (w : world) (e : exn) :
  isStatusOk (ext w) 0%nat = Ok true ->
  let timestamp := ticks (ext w) 0%nat `div` 1000 in
  let p := fresh_payload (data_set w) in
  (timestamp `mod` 5 = 0 ->
   tsl (ext w) 0%nat = Raise e ->
   events (upload_tick w) =
   [EAcquire; EIsStatusOk; ETicksMs; ESendTsl 1 p; EPrint e; ERelease; ESleep 1]) /\
  (forall r,
   timestamp `mod` 1800 = 0 ->
   tsl (ext w) 0%nat = Ok r ->
   lbs (ext w) 0%nat = Raise e ->
   events (upload_tick w) =
   [EAcquire; EIsStatusOk; ETicksMs; ESendTsl 1 p;
    ELog INFO ("SensorDataUploader upload result: " +:+ str (PyBool r));
    ESendLbs; EPrint e; ERelease; ESleep 1]).
Proof.
  intros Hok timestamp p. split.
  - intros H5 Htsl. rewrite upload_tick_eq. cbn zeta.
    rewrite (upload_try_ready _ Hok). cbn zeta. fold timestamp.
    erewrite bind_Ok by (by apply assemble_fresh_eq).
    erewrite bind_Raise
      by (erewrite dispatch_bound by reflexivity; cbn; rewrite Htsl; reflexivity).
    reflexivity.
  - intros r H1800 Htsl Hlbs. rewrite upload_tick_eq. cbn zeta.
    rewrite (upload_try_fresh w r Hok Htsl (mod_60_5 _ (mod_1800_60 _ H1800))).
    fold timestamp. unfold report_location.
    apply Z.eqb_eq in H1800. rewrite H1800.
    match goal with |- context [prefix _ (_ ?w')] => set (w3 := w') end.
    pose proof (sendLbs_raise 0 w3 e ltac:(lia) ltac:(intros; lia) Hlbs) as Hs.
    erewrite (bind_Raise _ _ w3) by (erewrite bind_Raise by exact Hs; reflexivity).
    reflexivity.
Qed.

(** X10: the retries of the location reports run inside the round, with the
    lock held.  On a multiple of 1800 with the LBS and the GNSS report
    failing at every attempt, the round sleeps 20 times between taking the
    lock and releasing it. *)
Theorem retries_hold_the_lock (w : world) (r : bool) :
  isStatusOk (ext w) 0%nat = Ok true ->
  tsl (ext w) 0%nat = Ok r ->
  (ticks (ext w) 0%nat `div` 1000) `mod` 1800 = 0 ->
  (forall i, (i < 10)%nat -> lbs (ext w) i = Ok false) ->
  (forall i, (i < 10)%nat -> gnss (ext w) i = Ok false) ->
  exists t,
    events (upload_tick w) = EAcquire :: t ++ [ERelease; ESleep 1] /\
    count is_lock t = 0%nat /\
    count is_ESleep t = 20%nat /\
    count is_ESendLbs t = 10%nat /\ count is_ESendGnss t = 10%nat.
Proof.
  intros Hok Htsl H1800 Hlbs Hgnss.
  pose proof (mod_1800_60 _ H1800) as H60.
  rewrite upload_tick_eq. cbn zeta.
  rewrite (upload_try_fresh w r Hok Htsl (mod_60_5 _ H60)).
  unfold report_location. apply Z.eqb_eq in H1800, H60. rewrite H1800, H60.
  erewrite bind_Ok.
  2:{ erewrite bind_Ok by (by apply sendLbs_all_fail). reflexivity. }
  erewrite bind_Ok by (by apply sendGnss_all_fail).
  unfold prefix, logger_info, emit. cbn [res events after].
  eexists. split; [reflexivity|].
  repeat split; rewrite ?count_app, ?count_times; cbn; lia.
Qed.

(** X11: a round calls [sendTsl] at most once, whatever the client and the
    shared set are: a dispatch that returns [False] or raises is not tried
    again in the round. *)
Theorem one_dispatch_per_round (w : world) :
  (count is_ESendTsl (events (upload_tick w)) <= 1)%nat.
Proof.
  rewrite upload_tick_eq. cbn zeta. cbn [events count is_ESendTsl].
  rewrite !count_app.
  assert (count is_ESendTsl (events (upload_try w)) <= 1)%nat as Htry.
  { destruct (isStatusOk (ext w) 0%nat) as [[|]|e] eqn:E.
    - rewrite (upload_try_ready _ E). cbn zeta. unfold prefix. cbn [events].
      rewrite count_app, events_bind, count_app.
      match goal with |- context [assemble ?ts ?w'] =>
        destruct (assemble_frame ts w') as (-> & _);
        destruct (res (assemble ts w')) as [[]|ea]; [|cbn; lia];
        set (w2 := after (assemble ts w')) end.
      rewrite events_bind, count_app.
      assert (count is_ESendTsl (events (dispatch w2)) <= 1)%nat as Hd.
      { destruct (data w2) as [d|] eqn:Ed.
        - rewrite (dispatch_bound _ _ Ed). destruct (tsl (ext w2) 0%nat); cbn; lia.
        - rewrite (dispatch_unbound _ Ed). cbn. lia. }
      destruct (res (dispatch w2)) as [[]|ed]; [|cbn; lia].
      rewrite (count_none is_ESendTsl (events (report_location _ _)))
        by (by apply emits_report_location).
      cbn. lia.
    - rewrite (upload_try_not_ready _ E). cbn. lia.
    - rewrite (upload_try_raise _ _ E). cbn. lia. }
  destruct (res (upload_try w)); cbn; lia.
Qed.

(** ** Sampling rounds in sequence, and the round of the upload task after them *)

Lemma getSensorData_frame (w : world) :
  let w' := after (getSensorData w) in
  data w' = data w /\ isStatusOk (ext w') = isStatusOk (ext w) /\
  lbs (ext w') = lbs (ext w) /\ gnss (ext w') = gnss (ext w) /\
  tsl (ext w') = tsl (ext w) /\ ticks (ext w') = ticks (ext w).
Proof. cbn zeta. run_round; done. Qed.

Lemma getSensorData_next (w : world) (i : nat) :
  let w' := after (getSensorData w) in
  shtc3 (ext w') i = shtc3 (ext w) (S i) /\
  lps22hb (ext w') i = lps22hb (ext w) (S i) /\
  tcs34725 (ext w') i = tcs34725 (ext w) (S i).
Proof. cbn zeta. run_round; done. Qed.

Lemma SensorDataCollector_call_S (n : nat) (w : world) :
  after (SensorDataCollector_call (S n) w) =
  after (SensorDataCollector_call n (after (getSensorData w))).
Proof.
  unfold SensorDataCollector_call.
  rewrite while_True_S by apply collector_round_res. unfold prefix. cbn [after].
  f_equal. unfold mbind, M_bind, sleep, emit.
  pose proof (getSensorData_res w) as E.
  destruct (getSensorData w) as [r w1 t1]. cbn in E. by subst r.
Qed.

Lemma temp1_drift (n : nat) (w : world) (p : num) :
  prev_temp1 (collector w) = Some p ->
  (forall i, (i < n)%nat -> forall t h, shtc3 (ext w) i = Ok (t, h) ->
     num_gt (num_abs (num_sub t p)) num_one = false) ->
  let w' := after (SensorDataCollector_call n w) in
  prev_temp1 (collector w') = Some p /\
  ((exists i, (i < n)%nat /\ returned (shtc3 (ext w) i) = true) ->
   temp1 (data_set w') = None) /\
  ((forall i, (i < n)%nat -> returned (shtc3 (ext w) i) = false) ->
   temp1 (data_set w') = temp1 (data_set w)) /\
  (temp1 (data_set w) = None -> temp1 (data_set w') = None).
Proof.
  revert w. induction n as [|n IH]; intros w Hp Hq; cbn zeta.
  { cbn. split; [done|]. split; [intros (i & Hi & _); lia|]. split; done. }
  rewrite SensorDataCollector_call_S. set (w1 := after (getSensorData w)).
  pose proof (getSensorData_shtc3 w) as HS. cbn zeta in HS. fold w1 in HS.
  assert (prev_temp1 (collector w1) = Some p /\
          (returned (shtc3 (ext w) 0%nat) = true -> temp1 (data_set w1) = None) /\
          (returned (shtc3 (ext w) 0%nat) = false ->
           temp1 (data_set w1) = temp1 (data_set w)))
    as (Hp1 & Hr1 & Hf1).
  { destruct (shtc3 (ext w) 0%nat) as [[t h]|e] eqn:E;
      destruct HS as (S1 & S2 & _); rewrite S1, S2; cbn [returned].
    - rewrite Hp. unfold filtered, memo, is_None_or_changed.
      rewrite (Hq 0%nat ltac:(lia) t h E). done.
    - done. }
  assert (forall i, shtc3 (ext w1) i = shtc3 (ext w) (S i)) as Hnext.
  { intros i. pose proof (getSensorData_next w i) as N. cbn zeta in N. fold w1 in N.
    tauto. }
  destruct (IH w1 Hp1) as (IH1 & IH2 & IH3 & IH4).
  { intros i Hi t h E. apply (Hq (S i) ltac:(lia) t h).
    by rewrite <- Hnext. }
  split; [done|]. split; [|split].
  - intros (i & Hi & Hr). destruct (returned (shtc3 (ext w) 0%nat)) eqn:E0.
    + by apply IH4, Hr1.
    + destruct i as [|j]; [congruence|]. apply IH2. exists j.
      split; [lia|]. by rewrite Hnext.
  - intros Hall. rewrite IH3.
    + apply Hf1, Hall. lia.
    + intros i Hi. rewrite Hnext. apply Hall. lia.
  - intros HN. apply IH4. destruct (returned (shtc3 (ext w) 0%nat)) eqn:E0.
    + by apply Hr1.
    + by rewrite Hf1.
Qed.

Lemma humi_drift (n : nat) (w : world) (p : num) :
  prev_humi (collector w) = Some p ->
  (forall i, (i < n)%nat -> forall t h, shtc3 (ext w) i = Ok (t, h) ->
     num_gt (num_abs (num_sub h p)) num_one = false) ->
  let w' := after (SensorDataCollector_call n w) in
  prev_humi (collector w') = Some p /\
  ((exists i, (i < n)%nat /\ returned (shtc3 (ext w) i) = true) ->
   humi (data_set w') = None) /\
  ((forall i, (i < n)%nat -> returned (shtc3 (ext w) i) = false) ->
   humi (data_set w') = humi (data_set w)) /\
  (humi (data_set w) = None -> humi (data_set w') = None).
Proof.
  revert w. induction n as [|n IH]; intros w Hp Hq; cbn zeta.
  { cbn. split; [done|]. split; [intros (i & Hi & _); lia|]. split; done. }
  rewrite SensorDataCollector_call_S. set (w1 := after (getSensorData w)).
  pose proof (getSensorData_shtc3 w) as HS. cbn zeta in HS. fold w1 in HS.
  assert (prev_humi (collector w1) = Some p /\
          (returned (shtc3 (ext w) 0%nat) = true -> humi (data_set w1) = None) /\
          (returned (shtc3 (ext w) 0%nat) = false ->
           humi (data_set w1) = humi (data_set w)))
    as (Hp1 & Hr1 & Hf1).
  { destruct (shtc3 (ext w) 0%nat) as [[t h]|e] eqn:E;
      destruct HS as (_ & _ & S1 & S2); rewrite S1, S2; cbn [returned].
    - rewrite Hp. unfold filtered, memo, is_None_or_changed.
      rewrite (Hq 0%nat ltac:(lia) t h E). done.
    - done. }
  assert (forall i, shtc3 (ext w1) i = shtc3 (ext w) (S i)) as Hnext.
  { intros i. pose proof (getSensorData_next w i) as N. cbn zeta in N. fold w1 in N.
    tauto. }
  destruct (IH w1 Hp1) as (IH1 & IH2 & IH3 & IH4).
  { intros i Hi t h E. apply (Hq (S i) ltac:(lia) t h).
    by rewrite <- Hnext. }
  split; [done|]. split; [|split].
  - intros (i & Hi & Hr). destruct (returned (shtc3 (ext w) 0%nat)) eqn:E0.
    + by apply IH4, Hr1.
    + destruct i as [|j]; [congruence|]. apply IH2. exists j.
      split; [lia|]. by rewrite Hnext.
  - intros Hall. rewrite IH3.
    + apply Hf1, Hall. lia.
    + intros i Hi. rewrite Hnext. apply Hall. lia.
  - intros HN. apply IH4. destruct (returned (shtc3 (ext w) 0%nat)) eqn:E0.
    + by apply Hr1.
    + by rewrite Hf1.
Qed.

Lemma temp2_drift (n : nat) (w : world) (p : num) :
  prev_temp2 (collector w) = Some p ->
  (forall i, (i < n)%nat -> forall pr t, lps22hb (ext w) i = Ok (pr, t) ->
     num_gt (num_abs (num_sub t p)) num_one = false) ->
  let w' := after (SensorDataCollector_call n w) in
  prev_temp2 (collector w') = Some p /\
  ((exists i, (i < n)%nat /\ returned (lps22hb (ext w) i) = true) ->
   temp2 (data_set w') = None) /\
  ((forall i, (i < n)%nat -> returned (lps22hb (ext w) i) = false) ->
   temp2 (data_set w') = temp2 (data_set w)) /\
  (temp2 (data_set w) = None -> temp2 (data_set w') = None).
Proof.
  revert w. induction n as [|n IH]; intros w Hp Hq; cbn zeta.
  { cbn. split; [done|]. split; [intros (i & Hi & _); lia|]. split; done. }
  rewrite SensorDataCollector_call_S. set (w1 := after (getSensorData w)).
  pose proof (getSensorData_lps22hb w) as HS. cbn zeta in HS. fold w1 in HS.
  assert (prev_temp2 (collector w1) = Some p /\
          (returned (lps22hb (ext w) 0%nat) = true -> temp2 (data_set w1) = None) /\
          (returned (lps22hb (ext w) 0%nat) = false ->
           temp2 (data_set w1) = temp2 (data_set w)))
    as (Hp1 & Hr1 & Hf1).
  { destruct (lps22hb (ext w) 0%nat) as [[pr t]|e] eqn:E;
      destruct HS as (S1 & S2 & _); rewrite S1, S2; cbn [returned].
    - rewrite Hp. unfold filtered, memo, is_None_or_changed.
      rewrite (Hq 0%nat ltac:(lia) pr t E). done.
    - done. }
  assert (forall i, lps22hb (ext w1) i = lps22hb (ext w) (S i)) as Hnext.
  { intros i. pose proof (getSensorData_next w i) as N. cbn zeta in N. fold w1 in N.
    tauto. }
  destruct (IH w1 Hp1) as (IH1 & IH2 & IH3 & IH4).
  { intros i Hi pr t E. apply (Hq (S i) ltac:(lia) pr t).
    by rewrite <- Hnext. }
  split; [done|]. split; [|split].
  - intros (i & Hi & Hr). destruct (returned (lps22hb (ext w) 0%nat)) eqn:E0.
    + by apply IH4, Hr1.
    + destruct i as [|j]; [congruence|]. apply IH2. exists j.
      split; [lia|]. by rewrite Hnext.
  - intros Hall. rewrite IH3.
    + apply Hf1, Hall. lia.
    + intros i Hi. rewrite Hnext. apply Hall. lia.
  - intros HN. apply IH4. destruct (returned (lps22hb (ext w) 0%nat)) eqn:E0.
    + by apply Hr1.
    + by rewrite Hf1.
Qed.

Lemma press_drift (n : nat) (w : world) (p : num) :
  prev_press (collector w) = Some p ->
  (forall i, (i < n)%nat -> forall pr t, lps22hb (ext w) i = Ok (pr, t) ->
     num_gt (num_abs (num_sub pr p)) num_one = false) ->
  let w' := after (SensorDataCollector_call n w) in
  prev_press (collector w') = Some p /\
  ((exists i, (i < n)%nat /\ returned (lps22hb (ext w) i) = true) ->
   press (data_set w') = None) /\
  ((forall i, (i < n)%nat -> returned (lps22hb (ext w) i) = false) ->
   press (data_set w') = press (data_set w)) /\
  (press (data_set w) = None -> press (data_set w') = None).
Proof.
  revert w. induction n as [|n IH]; intros w Hp Hq; cbn zeta.
  { cbn. split; [done|]. split; [intros (i & Hi & _); lia|]. split; done. }
  rewrite SensorDataCollector_call_S. set (w1 := after (getSensorData w)).
  pose proof (getSensorData_lps22hb w) as HS. cbn zeta in HS. fold w1 in HS.
  assert (prev_press (collector w1) = Some p /\
          (returned (lps22hb (ext w) 0%nat) = true -> press (data_set w1) = None) /\
          (returned (lps22hb (ext w) 0%nat) = false ->
           press (data_set w1) = press (data_set w)))
    as (Hp1 & Hr1 & Hf1).
  { destruct (lps22hb (ext w) 0%nat) as [[pr t]|e] eqn:E;
      destruct HS as (_ & _ & S1 & S2); rewrite S1, S2; cbn [returned].
    - rewrite Hp. unfold filtered, memo, is_None_or_changed.
      rewrite (Hq 0%nat ltac:(lia) pr t E). done.
    - done. }
  assert (forall i, lps22hb (ext w1) i = lps22hb (ext w) (S i)) as Hnext.
  { intros i. pose proof (getSensorData_next w i) as N. cbn zeta in N. fold w1 in N.
    tauto. }
  destruct (IH w1 Hp1) as (IH1 & IH2 & IH3 & IH4).
  { intros i Hi pr t E. apply (Hq (S i) ltac:(lia) pr t).
    by rewrite <- Hnext. }
  split; [done|]. split; [|split].
  - intros (i & Hi & Hr). destruct (returned (lps22hb (ext w) 0%nat)) eqn:E0.
    + by apply IH4, Hr1.
    + destruct i as [|j]; [congruence|]. apply IH2. exists j.
      split; [lia|]. by rewrite Hnext.
  - intros Hall. rewrite IH3.
    + apply Hf1, Hall. lia.
    + intros i Hi. rewrite Hnext. apply Hall. lia.
  - intros HN. apply IH4. destruct (returned (lps22hb (ext w) 0%nat)) eqn:E0.
    + by apply Hr1.
    + by rewrite Hf1.
Qed.

(** X12: samples that stay within the threshold of the memo never move it,
    over any number of sampling rounds and whatever reads fail in between:
    the comparison is against the last reported value, not the last sample.
    After the rounds the memo of the metric is the one before them.  The
    shared field is [None] as soon as one read of the metric's sensor
    returned in these rounds, and it is what it was before them if every
    read raised. *)
Theorem memo_holds_under_drift (n : nat) (w : world) :
  let w' := after (SensorDataCollector_call n w) in
  (forall p, prev_temp1 (collector w) = Some p ->
     (forall i, (i < n)%nat -> forall t h, shtc3 (ext w) i = Ok (t, h) ->
        num_gt (num_abs (num_sub t p)) num_one = false) ->
     prev_temp1 (collector w') = Some p /\
     ((exists i, (i < n)%nat /\ returned (shtc3 (ext w) i) = true) ->
      temp1 (data_set w') = None) /\
     ((forall i, (i < n)%nat -> returned (shtc3 (ext w) i) = false) ->
      temp1 (data_set w') = temp1 (data_set w))) /\
  (forall p, prev_humi (collector w) = Some p ->
     (forall i, (i < n)%nat -> forall t h, shtc3 (ext w) i = Ok (t, h) ->
        num_gt (num_abs (num_sub h p)) num_one = false) ->
     prev_humi (collector w') = Some p /\
     ((exists i, (i < n)%nat /\ returned (shtc3 (ext w) i) = true) ->
      humi (data_set w') = None) /\
     ((forall i, (i < n)%nat -> returned (shtc3 (ext w) i) = false) ->
      humi (data_set w') = humi (data_set w))) /\
  (forall p, prev_temp2 (collector w) = Some p ->
     (forall i, (i < n)%nat -> forall pr t, lps22hb (ext w) i = Ok (pr, t) ->
        num_gt (num_abs (num_sub t p)) num_one = false) ->
     prev_temp2 (collector w') = Some p /\
     ((exists i, (i < n)%nat /\ returned (lps22hb (ext w) i) = true) ->
      temp2 (data_set w') = None) /\
     ((forall i, (i < n)%nat -> returned (lps22hb (ext w) i) = false) ->
      temp2 (data_set w') = temp2 (data_set w))) /\
  (forall p, prev_press (collector w) = Some p ->
     (forall i, (i < n)%nat -> forall pr t, lps22hb (ext w) i = Ok (pr, t) ->
        num_gt (num_abs (num_sub pr p)) num_one = false) ->
     prev_press (collector w') = Some p /\
     ((exists i, (i < n)%nat /\ returned (lps22hb (ext w) i) = true) ->
      press (data_set w') = None) /\
     ((forall i, (i < n)%nat -> returned (lps22hb (ext w) i) = false) ->
      press (data_set w') = press (data_set w))).
Proof.
  cbn zeta. split; [|split; [|split]]; intros p Hp Hq.
  - destruct (temp1_drift n w p Hp Hq) as (A & B & C & _). by repeat split.
  - destruct (humi_drift n w p Hp Hq) as (A & B & C & _). by repeat split.
  - destruct (temp2_drift n w p Hp Hq) as (A & B & C & _). by repeat split.
  - destruct (press_drift n w p Hp Hq) as (A & B & C & _). by repeat split.
Qed.

(** Whenever a round sends a payload, it holds every field of the shared set
    that is not [None] under the key of its metric. *)
Lemma round_sends_fields (w : world) :
  isStatusOk (ext w) 0%nat = Ok true ->
  (ticks (ext w) 0%nat `div` 1000) `mod` 5 = 0 \/ data w <> None ->
  exists p t,
    events (upload_tick w) = EAcquire :: EIsStatusOk :: ETicksMs :: ESendTsl 1 p :: t /\
    (forall v, temp1 (data_set w) = Some v -> p !! 3 = Some (Scalar v)) /\
    (forall v, humi (data_set w) = Some v -> p !! 4 = Some (Scalar v)) /\
    (forall v, temp2 (data_set w) = Some v -> p !! 5 = Some (Scalar v)) /\
    (forall v, press (data_set w) = Some v -> p !! 6 = Some (Scalar v)) /\
    (temp1 (data_set w) = None -> data w = None -> p !! 3 = None).
Proof.
  intros Hok Hcase.
  set (w1 := with_ext (drop_ticks 1) (with_ext (drop_isStatusOk 1) w)).
  assert (exists d, res (assemble (ticks (ext w) 0%nat `div` 1000) w1) = Ok tt /\
                    data (after (assemble (ticks (ext w) 0%nat `div` 1000) w1)) =
                      Some (with_metrics (data_set w) d) /\
                    (data w = None -> d !! 3 = None)) as (d & Hres & Hdata & Hd3).
  { destruct (Z.eq_dec ((ticks (ext w) 0%nat `div` 1000) `mod` 5) 0) as [E|E].
    - destruct (assemble_fresh _ w1 E) as [? ?]. eexists. split; [done|].
      split; [done|]. intros _. by simplify_map_eq.
    - destruct Hcase as [?|Hb]; [done|]. destruct (data w) as [d|] eqn:Ed; [|done].
      destruct (assemble_bound _ w1 d E Ed) as [? ?]. by exists d. }
  destruct (round_sends w _ Hok Hres Hdata) as (t & Ht & _).
  exists (with_metrics (data_set w) d), t. split; [done|].
  destruct (with_metrics_lookup (data_set w) d) as (E3 & E4 & E5 & E6 & _).
  cbn zeta in *. rewrite E3, E4, E5, E6.
  repeat split; try (by intros v ->). intros -> Hn. by apply Hd3.
Qed.

(** X13: a sample the sampling round reports reaches the cloud with the next
    round of the upload task: if that round's status check succeeds and it
    sends a payload (its timestamp is a multiple of 5, or [data] is bound),
    the payload has the sample under the key of its metric. *)
Theorem reported_samples_are_sent (w : world) :
  isStatusOk (ext w) 0%nat = Ok true ->
  (ticks (ext w) 0%nat `div` 1000) `mod` 5 = 0 \/ data w <> None ->
  exists p t,
    events (upload_tick (after (getSensorData w))) =
      EAcquire :: EIsStatusOk :: ETicksMs :: ESendTsl 1 p :: t /\
    (forall t1 h, shtc3 (ext w) 0%nat = Ok (t1, h) ->
       (is_None_or_changed (prev_temp1 (collector w)) t1 = true ->
        p !! 3 = Some (Scalar t1)) /\
       (is_None_or_changed (prev_humi (collector w)) h = true ->
        p !! 4 = Some (Scalar h))) /\
    (forall pr t2, lps22hb (ext w) 0%nat = Ok (pr, t2) ->
       (is_None_or_changed (prev_temp2 (collector w)) t2 = true ->
        p !! 5 = Some (Scalar t2)) /\
       (is_None_or_changed (prev_press (collector w)) pr = true ->
        p !! 6 = Some (Scalar pr))).
Proof.
  intros Hok Hcase. set (w1 := after (getSensorData w)).
  destruct (getSensorData_frame w) as (Fd & Fs & _ & _ & _ & Ft). fold w1 in Fd, Fs, Ft.
  destruct (round_sends_fields w1) as (p & t & Ht & P3 & P4 & P5 & P6 & _).
  { by rewrite Fs. } { by rewrite Ft, Fd. }
  exists p, t. split; [done|].
  pose proof (getSensorData_shtc3 w) as SA. pose proof (getSensorData_lps22hb w) as SB.
  cbn zeta in SA, SB. fold w1 in SA, SB. split.
  - intros t1 h E. rewrite E in SA. destruct SA as (S1 & _ & S2 & _).
    unfold filtered in S1, S2. split; intros Hc; rewrite Hc in *; auto.
  - intros pr t2 E. rewrite E in SB. destruct SB as (S1 & _ & S2 & _).
    unfold filtered in S1, S2. split; intros Hc; rewrite Hc in *; auto.
Qed.

(** X14: a reported sample is dropped when a second sampling round runs
    before the upload task does.  The first round reports temp1 = [t1] and
    moves the memo to it; the second reads a value within the threshold of
    [t1] and resets the field to [None]; the round of the upload task that
    follows, on a multiple of 5, sends no temp1.  The memo stays at [t1],
    which was never sent. *)
Theorem unsent_report_is_dropped (w : world) (t1 h t1' h' : num) :
  shtc3 (ext w) 0%nat = Ok (t1, h) ->
  shtc3 (ext w) 1%nat = Ok (t1', h') ->
  is_None_or_changed (prev_temp1 (collector w)) t1 = true ->
  num_gt (num_abs (num_sub t1' t1)) num_one = false ->
  isStatusOk (ext w) 0%nat = Ok true ->
  (ticks (ext w) 0%nat `div` 1000) `mod` 5 = 0 ->
  let w1 := after (getSensorData w) in
  let w2 := after (getSensorData w1) in
  temp1 (data_set w1) = Some t1 /\
  temp1 (data_set w2) = None /\
  prev_temp1 (collector w2) = Some t1 /\
  exists p t,
    events (upload_tick w2) = EAcquire :: EIsStatusOk :: ETicksMs :: ESendTsl 1 p :: t /\
    p !! 3 = None.
Proof.
  intros E0 E1 Hc Hq Hok H5 w1 w2.
  pose proof (getSensorData_shtc3 w) as S1. cbn zeta in S1. fold w1 in S1.
  rewrite E0 in S1. destruct S1 as (F1 & M1 & _).
  unfold filtered in F1. unfold memo in M1. rewrite Hc in F1, M1.
  pose proof (getSensorData_shtc3 w1) as S2. cbn zeta in S2. fold w2 in S2.
  destruct (getSensorData_next w 0) as (N & _). cbn zeta in N. fold w1 in N.
  rewrite N, E1 in S2. destruct S2 as (F2 & M2 & _).
  unfold filtered in F2. unfold memo in M2.
  rewrite M1 in F2, M2. unfold is_None_or_changed in F2, M2. rewrite Hq in F2, M2.
  split; [done|]. split; [done|]. split; [done|].
  destruct (getSensorData_frame w) as (_ & Fs1 & _ & _ & _ & Ft1).
  destruct (getSensorData_frame w1) as (_ & Fs2 & _ & _ & _ & Ft2).
  cbn zeta in *. fold w1 in Fs1, Ft1. fold w2 in Fs2, Ft2.
  destruct (fresh_payload_sent_aux w2) as (t & Ht).
  { by rewrite Fs2, Fs1. } { by rewrite Ft2, Ft1. }
  exists (fresh_payload (data_set w2)), t. split; [done|].
  unfold fresh_payload.
  destruct (with_metrics_lookup (data_set w2)
              {[7 := Channels (channels (rgb888 (data_set w2)))]}) as (E3 & _).
  cbn zeta in E3. rewrite E3, F2. by simplify_map_eq.
Qed.

(** X15: until a sampling round has written it, the shared set holds the 0 of
    [DataSet.__init__] in every field, and 0 is not [None]: a round of the
    upload task that runs on it, on a multiple of 5, sends 0 for temp1,
    humidity, temp2 and pressure, and the channels of color 0. *)
Theorem unsampled_set_sends_zeros (w : world) :
  data_set w = DataSet_init ->
  isStatusOk (ext w) 0%nat = Ok true ->
  (ticks (ext w) 0%nat `div` 1000) `mod` 5 = 0 ->
  exists p t,
    events (upload_tick w) = EAcquire :: EIsStatusOk :: ETicksMs :: ESendTsl 1 p :: t /\
    p !! 3 = Some (Scalar num_zero) /\ p !! 4 = Some (Scalar num_zero) /\
    p !! 5 = Some (Scalar num_zero) /\ p !! 6 = Some (Scalar num_zero) /\
    p !! 7 = Some (Channels (channels 0)).
Proof.
  intros Hds Hok H5. destruct (fresh_payload_sent_aux w Hok H5) as (t & Ht).
  exists (fresh_payload (data_set w)), t. split; [done|].
  rewrite Hds. unfold fresh_payload, with_metrics, with_metric, DataSet_init. cbn.
  repeat split; by simplify_map_eq.
Qed.

End Properties.

(** * The properties on concrete rounds *)

Import Examples.

(** The scenario of three rounds reading 20.0, 20.5 and 22.0, on floats:
    20.0 is reported, 20.5 is not (the memo stays at 20.0), 22.0 is. *)
Lemma three_rounds_float :
  let w := reading [20%float; 20.5%float; 22%float] 50%float in
  temp1_after 1 w = (Some 20%float, Some 20%float) /\
  temp1_after 2 w = (None, Some 20%float) /\
  temp1_after 3 w = (Some 22%float, Some 22%float).
Proof. cbn zeta. repeat split; vm_compute; reflexivity. Qed.

(** The same scenario on rationals. *)
Lemma three_rounds_Q :
  let w := reading [QArith_base.Qmake 20 1; QArith_base.Qmake 41 2; QArith_base.Qmake 22 1]
             (QArith_base.Qmake 50 1) in
  temp1_after 1 w = (Some (QArith_base.Qmake 20 1), Some (QArith_base.Qmake 20 1)) /\
  temp1_after 2 w = (None, Some (QArith_base.Qmake 20 1)) /\
  temp1_after 3 w = (Some (QArith_base.Qmake 22 1), Some (QArith_base.Qmake 22 1)).
Proof. cbn zeta. repeat split; vm_compute; reflexivity. Qed.

(** The threshold is tested on the difference as the numeric type computes
    it.  On floats, a sample of [2^-60] against a memo of [-1.0] differs from
    it by more than 1, but the subtraction rounds to [1.0] and the sample is
    not reported. *)
Lemma float_difference_is_rounded :
  let w := reading [(-1)%float; 0x1p-60%float] 0%float in
  temp1_after 1 w = (Some (-1)%float, Some (-1)%float) /\
  temp1_after 2 w = (None, Some (-1)%float).
Proof. cbn zeta. repeat split; vm_compute; reflexivity. Qed.

(** C1 on [sampling_midrun]: the boundary case (21 against a memo of 20), the
    first sample, an unchanged value and a change of 2. *)
Lemma change_filter_contract_witness :
  let w' := after (getSensorData sampling_midrun) in
  (temp1 (data_set w') = None /\ prev_temp1 (collector w') = Some 20) /\
  (humi (data_set w') = Some 50 /\ prev_humi (collector w') = Some 50) /\
  (temp2 (data_set w') = None /\ prev_temp2 (collector w') = Some 21) /\
  (press (data_set w') = Some 1002 /\ prev_press (collector w') = Some 1002).
Proof.
  destruct (change_filter_contract sampling_midrun) as [HA HB].
  destruct (HA 21 50 eq_refl) as [(_ & _ & _ & T1) (Hu & _)].
  destruct (HB 1002 21 eq_refl) as [(_ & _ & T2 & _) (_ & P & _)].
  split; [exact (T1 20 eq_refl eq_refl)|].
  split; [exact (Hu eq_refl)|].
  split; [exact (T2 21 eq_refl eq_refl)|].
  exact (P 1000 eq_refl eq_refl).
Defined.

Lemma after_failures_before (k i : nat) : (i < k)%nat -> after_failures k i = Ok false.
Proof.
  intros Hi. unfold after_failures. destruct (Nat.leb_spec k i); [lia|reflexivity].
Defined.

Lemma after_failures_at (k : nat) : after_failures k k = Ok true.
Proof. unfold after_failures. by rewrite Nat.leb_refl. Defined.

(** C2, as amended, on a client whose LBS report succeeds at the fourth
    attempt and whose GNSS report always fails. *)
Lemma retry_attempts_witness :
  let w := uploading yes (after_failures 3) no yes (clock_from 0) in
  (count is_ESendLbs (events (sendLbs w)) = 4%nat /\
   count is_ESleep (events (sendLbs w)) = 3%nat) /\
  (count is_ESendGnss (events (sendGnss w)) = 10%nat /\
   count is_ESleep (events (sendGnss w)) = 10%nat).
Proof.
  cbn zeta.
  destruct (retry_attempts (uploading yes (after_failures 3) no yes (clock_from 0)))
    as (_ & L & G & _).
  destruct (L 3%nat ltac:(lia) (after_failures_before 3) (after_failures_at 3))
    as (_ & _ & L1 & L2).
  destruct (G (fun i _ => eq_refl)) as (_ & _ & G1 & G2).
  repeat split; assumption.
Defined.

(** C2 as stated fails: with every attempt failing, [sendLbs] returns [None]
    (not [False]) and has slept 10 times (not 9): it sleeps after the last
    attempt too. *)
Lemma retry_as_stated_counterexample :
  let o := sendLbs (uploading yes no no yes (clock_from 0)) in
  res o = Ok PyNone /\
  count is_ESendLbs (events o) = 10%nat /\
  count is_ESleep (events o) = 10%nat /\
  ~ (res o = Ok (PyBool false) /\
     count is_ESendLbs (events o) = 10%nat /\
     count is_ESleep (events o) = 9%nat).
Proof.
  cbn zeta. repeat split; try reflexivity.
  intros (_ & _ & Hs). vm_compute in Hs. discriminate.
Qed.

(** C3 on a client that is ready at the 30th poll, and on one that never is. *)
Lemma handshake_outcomes_witness :
  (exists t',
     events (SensorDataUploader_call 2 (uploading (after_failures 29) yes yes yes (clock_from 0))) =
     (EStart :: times 29 [EIsStatusOk; ESleep 1] ++ [EIsStatusOk]) ++ ESendLbs :: t') /\
  (let o := SensorDataUploader_call 2 (uploading no yes yes yes (clock_from 0)) in
   res o = Ok tt /\ count is_EIsStatusOk (events o) = 30%nat /\
   count is_ESendTsl (events o) = 0%nat).
Proof.
  split.
  - destruct (handshake_outcomes 2 (uploading (after_failures 29) yes yes yes (clock_from 0)))
      as [S _].
    destruct (S 29%nat ltac:(lia) (after_failures_before 29) (after_failures_at 29))
      as (_ & _ & E).
    exact E.
  - destruct (handshake_outcomes 2 (uploading no yes yes yes (clock_from 0))) as [_ F].
    destruct (F (fun i _ => eq_refl)) as (R & _ & P & T).
    repeat split; assumption.
Defined.




(** C5 fails on the code.  The round at timestamp 100 sends the color
    channels and temp1 = 20.  The sampling round that follows finds no change
    and sets all four filtered fields to [None].  The round at timestamp 101,
    not a multiple of 5, sends the dict of the round before again: the color
    channels and temp1 = 20 are still in it. *)
Lemma stale_payload_off_5s :
  let w0 := uploading yes yes yes yes (clock_from 100000) in
  let w1 := after (upload_tick w0) in
  let w2 := after (getSensorData w1) in
  ticks (ext w0) 0%nat `div` 1000 = 100 /\
  ticks (ext w2) 0%nat `div` 1000 = 101 /\
  data_set w2 = {| temp1 := None; humi := None; press := None; temp2 := None;
                   rgb888 := 0x112233 |} /\
  events (upload_tick w0) =
    [EAcquire; EIsStatusOk; ETicksMs; ESendTsl 1 payload_100;
     ELog INFO "SensorDataUploader upload result: True"; ERelease; ESleep 1] /\
  events (upload_tick w2) =
    [EAcquire; EIsStatusOk; ETicksMs; ESendTsl 1 payload_100;
     ELog INFO "SensorDataUploader upload result: True"; ERelease; ESleep 1].
Proof. cbn zeta. repeat split; vm_compute; reflexivity. Qed.

(** C6 on the first round with the SHTC3 read failing: its fields keep their
    initial values and its memos stay unset, the error is logged, and the
    LPS22HB and the color sensor are sampled as usual. *)
Lemma sampling_fault_isolation_witness :
  let o := getSensorData first_round_shtc3_fails in
  res o = Ok tt /\
  In (ELog ERROR "shtc3 get sensor data failed, I2C bus error") (events o) /\
  temp1 (data_set (after o)) = Some 0 /\
  prev_temp1 (collector (after o)) = None /\
  press (data_set (after o)) = Some 1002 /\
  rgb888 (data_set (after o)) = 0x112233.
Proof.
  destruct (sampling_fault_isolation first_round_shtc3_fails)
    as (R & A & _ & _ & _ & B & C & _).
  destruct (A (ExternalError "I2C bus error") eq_refl) as (L & T & _ & P & _).
  destruct (B 1002 21 eq_refl) as [(Pn & _) _].
  split; [exact R|]. split; [exact L|]. split; [exact T|]. split; [exact P|].
  split; [exact (proj1 (Pn eq_refl))|]. exact (C 0x112233 eq_refl).
Defined.

(** C7, as amended, on a loop whose first round is at timestamp 101. *)
Lemma unbound_data_fault_witness :
  let o := upload_tick (uploading yes yes yes yes (clock_from 101000)) in
  events o = [EAcquire; EIsStatusOk; ETicksMs; EPrint (NameError "data");
              ERelease; ESleep 1] /\
  data (after o) = None.
Proof.
  destruct (unbound_data_fault (uploading yes yes yes yes (clock_from 101000))
              eq_refl eq_refl ltac:(discriminate)) as (_ & E & _ & D).
  split; assumption.
Defined.

(** C7 as stated fails: the loop starts at timestamp 100, and the round at
    101, the first whose timestamp is not a multiple of 5, finds [data] bound
    by the round before; it raises nothing and calls [sendTsl]. *)
Lemma unbound_data_counterexample :
  let w0 := uploading yes yes yes yes (clock_from 100000) in
  let w1 := after (upload_tick w0) in
  data w0 = None /\
  (ticks (ext w0) 0%nat `div` 1000) `mod` 5 = 0 /\
  (ticks (ext w1) 0%nat `div` 1000) `mod` 5 <> 0 /\
  res (upload_try w1) = Ok tt /\
  count is_ESendTsl (events (upload_tick w1)) = 1%nat.
Proof. cbn zeta. repeat split; try reflexivity. discriminate. Qed.

(** C8 on a round whose status check fails. *)
Lemma not_ready_round_skipped_witness :
  events (upload_tick (uploading no yes yes yes (clock_from 100000))) =
  [EAcquire; EIsStatusOk; ELog ERROR "qth server connect error"; ERelease; ESleep 1].
Proof.
  destruct (not_ready_round_skipped (uploading no yes yes yes (clock_from 100000)) eq_refl)
    as (_ & E & _).
  exact E.
Defined.

(** C9 on a client whose [sendTsl] raises. *)
Lemma round_exceptions_caught_witness :
  let w := uploading yes yes yes (fun _ => Raise (ExternalError "timeout")) (clock_from 100000) in
  events (upload_tick w) =
    EAcquire :: events (upload_try w) ++
    [EPrint (ExternalError "timeout"); ERelease; ESleep 1] /\
  res (while_True 3 upload_tick w) = Ok tt.
Proof.
  cbn zeta.
  destruct (round_exceptions_caught
              (uploading yes yes yes (fun _ => Raise (ExternalError "timeout"))
                 (clock_from 100000))) as (_ & C & _ & L).
  split; [exact (C (ExternalError "timeout") eq_refl)|exact (L 3%nat)].
Defined.

(** C10, as amended, on a round in which every sample equals its memo. *)
Lemma field_tracks_memo_kept_witness :
  let w := uploading yes yes yes yes (clock_from 0) in
  let w' := after (getSensorData w) in
  field_tracks_memo (temp1 (data_set w')) (prev_temp1 (collector w')) /\
  field_tracks_memo (humi (data_set w')) (prev_humi (collector w')) /\
  prev_temp1 (collector w') <> None.
Proof.
  cbn zeta.
  destruct (field_tracks_memo_kept (uploading yes yes yes yes (clock_from 0)))
    as (A & _ & T & _ & _ & _ & S & _).
  split; [exact (T (or_intror eq_refl))|].
  split; [exact (proj2 (A (20, 50) eq_refl))|].
  apply S. discriminate.
Defined.

(** C10 as stated fails: when the SHTC3 read of the first round fails, temp1
    still holds its initial 0 after the round and the memo is unset. *)
Lemma field_tracks_memo_counterexample :
  let w' := after (getSensorData first_round_shtc3_fails) in
  temp1 (data_set w') = Some 0 /\
  prev_temp1 (collector w') = None /\
  ~ field_tracks_memo (temp1 (data_set w')) (prev_temp1 (collector w')).
Proof.
  cbn zeta. repeat split. intros [E|E]; vm_compute in E; discriminate.
Qed.

(** * The further properties on concrete rounds *)

(** X2 on the rounds after the one at timestamp 100. *)
Lemma data_stays_bound_witness :
  data (after (while_True 3 upload_tick uploading_at_101)) <> None.
Proof.
  exact (proj2 (data_stays_bound 3 uploading_at_101 ltac:(discriminate))).
Defined.

(** X4 on the round at timestamp 100. *)
Lemma fresh_payload_sent_witness :
  let w := uploading yes yes yes yes (clock_from 100000) in
  let p := fresh_payload (data_set w) in
  (exists t, events (upload_tick w) =
             EAcquire :: EIsStatusOk :: ETicksMs :: ESendTsl 1 p :: t /\
             count is_ESendTsl t = 0%nat) /\
  p !! 3 = Some (Scalar 20) /\ p !! 4 = None.
Proof.
  destruct (fresh_payload_sent (uploading yes yes yes yes (clock_from 100000))
              eq_refl eq_refl) as (S & _ & P3 & P4 & _).
  cbn zeta. split; [exact S|]. split; [exact P3|exact P4].
Defined.

(** X5 on the round at timestamp 101: temp1 is [None] in the shared set, and
    the 20 of the round before is sent again. *)
Lemma stale_entries_sent_witness :
  let p := with_metrics (data_set uploading_at_101) payload_100 in
  temp1 (data_set uploading_at_101) = None /\
  p !! 3 = Some (Scalar 20) /\ p !! 7 = payload_100 !! 7.
Proof.
  destruct (stale_entries_sent uploading_at_101 payload_100
              eq_refl ltac:(discriminate) eq_refl) as (_ & P7 & P3 & _).
  cbn zeta. split; [reflexivity|]. split; [exact (P3 eq_refl)|exact P7].
Defined.

(** X6 on the color 0x112233. *)
Lemma channels_are_bytes_witness :
  exists r g b,
    channels 0x112233 !! 1 = Some r /\ channels 0x112233 !! 2 = Some g /\
    channels 0x112233 !! 3 = Some b /\ 0x112233 = 65536 * r + 256 * g + b.
Proof.
  destruct (channels_are_bytes 0x112233) as (r & g & b & E1 & E2 & E3 & _ & _ & _ & R).
  exists r, g, b. split; [exact E1|]. split; [exact E2|]. split; [exact E3|].
  apply R. lia.
Defined.

Lemma fails_then_before (k : nat) (r : result bool) (i : nat) :
  (i < k)%nat -> fails_then k r i = Ok false.
Proof.
  intros Hi. unfold fails_then. destruct (Nat.ltb_spec i k); [reflexivity|lia].
Defined.

Lemma fails_then_at (k : nat) (r : result bool) : fails_then k r k = r.
Proof. unfold fails_then. by rewrite Nat.ltb_irrefl. Defined.

(** X8 on a status check that raises at the third poll, and on a client that
    is ready at once and raises at the second LBS attempt. *)
Lemma startup_exception_ends_task_witness :
  let e := ExternalError "socket closed" in
  (let o := SensorDataUploader_call 5
              (uploading (fails_then 2 (Raise e)) yes yes yes (clock_from 0)) in
   res o = Raise e /\
   events o = [EStart; EIsStatusOk; ESleep 1; EIsStatusOk; ESleep 1; EIsStatusOk]) /\
  (let o := SensorDataUploader_call 5
              (uploading yes (fails_then 1 (Raise e)) yes yes (clock_from 0)) in
   res o = Raise e /\
   events o = [EStart; EIsStatusOk; ESendLbs; ESleep 1; ESendLbs]).
Proof.
  cbn zeta. split.
  - destruct (startup_exception_ends_task 5
                (uploading (fails_then 2 (Raise (ExternalError "socket closed")))
                   yes yes yes (clock_from 0))
                (ExternalError "socket closed")) as [A _].
    destruct (A 2%nat ltac:(lia) (fails_then_before 2 _) (fails_then_at 2 _))
      as (R & E & _).
    split; [exact R|exact E].
  - destruct (startup_exception_ends_task 5
                (uploading yes (fails_then 1 (Raise (ExternalError "socket closed")))
                   yes yes (clock_from 0))
                (ExternalError "socket closed")) as [_ B].
    destruct (B 0%nat 1%nat ltac:(lia) ltac:(lia) (fun i Hi => ltac:(lia)) eq_refl
                (fails_then_before 1 _) (fails_then_at 1 _)) as (R & E & _).
    split; [exact R|exact E].
Defined.

(** X9 at timestamp 1800, with [sendTsl] raising and with the LBS call
    raising. *)
Lemma exception_skips_rest_of_round_witness :
  let e := ExternalError "timeout" in
  count is_ESendLbs
    (events (upload_tick (uploading yes yes yes (fun _ => Raise e) (clock_from 1800000))))
    = 0%nat /\
  count is_ESendGnss
    (events (upload_tick (uploading yes (fun _ => Raise e) yes yes (clock_from 1800000))))
    = 0%nat.
Proof.
  cbn zeta. split.
  - destruct (exception_skips_rest_of_round
                (uploading yes yes yes (fun _ => Raise (ExternalError "timeout"))
                   (clock_from 1800000))
                (ExternalError "timeout") eq_refl) as [A _].
    rewrite (A eq_refl eq_refl). reflexivity.
  - destruct (exception_skips_rest_of_round
                (uploading yes (fun _ => Raise (ExternalError "timeout")) yes yes
                   (clock_from 1800000))
                (ExternalError "timeout") eq_refl) as [_ B].
    rewrite (B true eq_refl eq_refl eq_refl). reflexivity.
Defined.

(** X10 at timestamp 1800 with both location reports failing. *)
Lemma retries_hold_the_lock_witness :
  exists t,
    events (upload_tick (uploading yes no no yes (clock_from 1800000))) =
      EAcquire :: t ++ [ERelease; ESleep 1] /\
    count is_ESleep t = 20%nat.
Proof.
  destruct (retries_hold_the_lock (uploading yes no no yes (clock_from 1800000)) true
              eq_refl eq_refl eq_refl (fun i _ => eq_refl) (fun i _ => eq_refl))
    as (t & E & _ & S & _).
  exists t. split; [exact E|exact S].
Defined.

Lemma drift_samples (i : nat) :
  (i < 4)%nat -> forall t h : Z,
  shtc3 (ext (drifting drift_reads)) i = Ok (t, h) ->
  num_gt (num_abs (num_sub t 20)) num_one = false.
Proof.
  intros Hi t h E. destruct i as [|[|[|[|i]]]]; try lia; try discriminate E;
    injection E as <- <-; reflexivity.
Defined.

(** X12 on the samples 21, 19, 21, 20 against a memo of 20, the second read
    failing: the memo stays at 20 and temp1, 20 before the rounds, is [None]
    after them.  With every read failing temp1 is still 20. *)
Lemma memo_holds_under_drift_witness :
  (let w' := after (SensorDataCollector_call 4 (drifting drift_reads)) in
   prev_temp1 (collector w') = Some 20 /\ temp1 (data_set w') = None) /\
  (let w' := after (SensorDataCollector_call 4
                      (drifting (fun _ => Raise (ExternalError "i2c")))) in
   prev_temp1 (collector w') = Some 20 /\ temp1 (data_set w') = Some 20).
Proof.
  cbn zeta. split.
  - destruct (memo_holds_under_drift 4 (drifting drift_reads)) as (T & _).
    destruct (T 20 eq_refl drift_samples) as (M & F & _).
    split; [exact M|]. apply F. exists 0%nat. split; [lia|reflexivity].
  - destruct (memo_holds_under_drift 4
                (drifting (fun _ => Raise (ExternalError "i2c")))) as (T & _).
    destruct (T 20 eq_refl (fun i _ t h E => ltac:(discriminate E))) as (M & _ & F).
    split; [exact M|]. exact (F (fun _ _ => eq_refl)).
Defined.

(** X13 on a sampling round that reports temp1 = 22. *)
Lemma reported_samples_are_sent_witness :
  exists p t,
    events (upload_tick (after (getSensorData (sampling [22] 22)))) =
      EAcquire :: EIsStatusOk :: ETicksMs :: ESendTsl 1 p :: t /\
    p !! 3 = Some (Scalar 22).
Proof.
  destruct (reported_samples_are_sent (sampling [22] 22) eq_refl (or_introl eq_refl))
    as (p & t & E & A & _).
  exists p, t. split; [exact E|].
  exact (proj1 (A 22 50 eq_refl) eq_refl).
Defined.

(** X14 on the samples 22 (reported against the memo of 20) and 23 (within
    the threshold of 22). *)
Lemma unsent_report_is_dropped_witness :
  let w1 := after (getSensorData (sampling [22; 23] 23)) in
  let w2 := after (getSensorData w1) in
  temp1 (data_set w1) = Some 22 /\ temp1 (data_set w2) = None /\
  prev_temp1 (collector w2) = Some 22 /\
  exists p t,
    events (upload_tick w2) = EAcquire :: EIsStatusOk :: ETicksMs :: ESendTsl 1 p :: t /\
    p !! 3 = None.
Proof.
  exact (unsent_report_is_dropped (sampling [22; 23] 23) 22 50 23 50
           eq_refl eq_refl eq_refl eq_refl eq_refl eq_refl).
Defined.

(** X15 on the state [main] starts the threads on. *)
Lemma unsampled_set_sends_zeros_witness :
  exists p t,
    events (upload_tick
              (main (steady (Ok (20, 50)) (Ok (1000, 21)) (Ok 0x112233)
                       yes yes yes yes (clock_from 100000)))) =
      EAcquire :: EIsStatusOk :: ETicksMs :: ESendTsl 1 p :: t /\
    p !! 3 = Some (Scalar 0).
Proof.
  destruct (unsampled_set_sends_zeros
              (main (steady (Ok (20, 50)) (Ok (1000, 21)) (Ok 0x112233)
                       yes yes yes yes (clock_from 100000)))
              eq_refl eq_refl eq_refl) as (p & t & E & P3 & _).
  exists p, t. split; [exact E|exact P3].
Defined.
